(** * GitHub API rate-limit tester: the measurement pipeline of
      [github_api_tester_clean.py], embedded and verified.

    The harness issues HTTP GET requests under three timing patterns,
    appends one record per request to an in-memory result list, and
    summarises that list.  The embedding keeps the shape of the Python
    code: a record type for the per-request dictionary, a finite map for
    the analysis dictionary, a state-and-exception monad for the methods
    of [GitHubAPITester], and binary64 floats for Python's [float]. *)

From Stdlib Require Import ZArith Floats String Ascii List Bool Lia.
From stdpp Require Import gmap strings list.

Local Open Scope Z_scope.

(** ** Python values and builtins *)

Module Py.

(** Exceptions that the modelled code can raise. *)
Inductive exn :=
| ValueError (msg : string)          (* raise ValueError(msg) *)
| InvalidLiteral (text : string)     (* ValueError raised by int(text) *)
| OverflowError                      (* its message depends on the library *)
| KeyError (key : string)
| TypeError (msg : string)
| AttributeError (name : string)     (* the attribute that is missing *)
| FileNotFoundError (path : string).

(** Outcome of a call: a value, or a propagating exception. *)
Inductive result (A : Type) :=
| Ok (a : A)
| Raise (e : exn).
Arguments Ok {A} a.
Arguments Raise {A} e.

Definition is_ok {A} (r : result A) : bool :=
  match r with Ok _ => true | Raise _ => false end.

(** Truthiness of an optional string: [None] and [''] are falsy. *)
Definition truthy (s : option string) : bool :=
  match s with
  | Some (String _ _) => true
  | _ => false
  end.

(** [a or b] on optional strings. *)
Definition or_else (a b : option string) : option string :=
  if truthy a then a else b.

(** [s[:n]] *)
Definition slice_to (n : nat) (s : string) : string := substring 0 n s.

(** The binary64 float nearest to an integer (ties to even).  It is
    used as it stands for list lengths; [to_float] below is the
    conversion of an arbitrary Python int. *)
Definition float_of_Z (z : Z) : float :=
  SF2Prim (binary_normalize prec emax z 0 false).

(** The least integer whose nearest float would be 2^1024. *)
Definition float_overflow : Z := 2 ^ 1024 - 2 ^ 970.

(** Conversion of a Python int to a float, as in [float(n)] and when
    an int meets a float in a division: it raises [OverflowError] when
    the integer rounds beyond the largest float. *)
Definition to_float (n : Z) : result float :=
  if Z.abs n <? float_overflow
  then Ok (float_of_Z n)
  else Raise OverflowError.

(** [a / b] on ints ([b] non-zero).  Both operands are list lengths
    here, exactly representable, so the quotient of the two floats is
    the correctly rounded quotient that Python returns. *)
Definition int_truediv (a b : Z) : float :=
  (float_of_Z a / float_of_Z b)%float.

(** *** [int(text)] on a [str]

    Strings are sequences of code points below 256 (HTTP header values
    are decoded as Latin-1).  Leading and trailing whitespace is
    skipped, one sign is accepted, and the digits may be grouped by
    single underscores.  More than [int_max_str_digits] digits are
    refused (the interpreter's default limit). *)

Definition is_space (c : ascii) : bool :=
  let n := Z.of_N (N_of_ascii c) in
  ((9 <=? n) && (n <=? 13)) || (n =? 32) || (n =? 133) || (n =? 160).

Definition digit_of (c : ascii) : option Z :=
  let n := Z.of_N (N_of_ascii c) in
  if (48 <=? n) && (n <=? 57) then Some (n - 48) else None.

Fixpoint lstrip (s : string) : string :=
  match s with
  | String c s' => if is_space c then lstrip s' else s
  | EmptyString => s
  end.

Inductive scan_state := AtStart | AfterDigit | AfterUnderscore.

(** Reads digits and underscores; returns the value, the number of
    digits and the unread rest, or [None] on a misplaced underscore or
    when no digit was read. *)
Fixpoint scan_digits (p : scan_state) (acc : Z) (nd : nat) (s : string)
  : option (Z * nat * string) :=
  match s with
  | String c s' =>
      match digit_of c with
      | Some d => scan_digits AfterDigit (10 * acc + d) (S nd) s'
      | None =>
          if Ascii.eqb c "_"
          then match p with
               | AfterDigit => scan_digits AfterUnderscore acc nd s'
               | _ => None
               end
          else match p with
               | AfterDigit => Some (acc, nd, s)
               | _ => None
               end
      end
  | EmptyString =>
      match p with
      | AfterDigit => Some (acc, nd, s)
      | _ => None
      end
  end.

Definition int_max_str_digits : nat := 4300.

Definition split_sign (s : string) : bool * string :=
  match s with
  | String c r =>
      if Ascii.eqb c "-" then (true, r)
      else if Ascii.eqb c "+" then (false, r)
      else (false, s)
  | EmptyString => (false, s)
  end.

Definition py_int (text : string) : option Z :=
  let '(neg, body) := split_sign (lstrip text) in
  match scan_digits AtStart 0 0 body with
  | Some (v, nd, rest) =>
      match lstrip rest with
      | EmptyString =>
          if (nd <=? int_max_str_digits)%nat
          then Some (if neg then - v else v)
          else None
      | String _ _ => None
      end
  | None => None
  end.

(** [range(n)] *)
Definition range (n : Z) : list Z :=
  List.map Z.of_nat (seq 0 (Z.to_nat n)).

(** [len(l)] *)
Definition len {A} (l : list A) : Z := Z.of_nat (List.length l).

End Py.

Export Py.

(** ** The parts of NumPy and pandas that [analyze_results] uses

    A numeric column is a list of floats, held by pandas as a contiguous
    float64 array. *)

Module Numpy.

(** The sum of fewer than eight entries: they are added from left to
    right, starting from the negative zero. *)
Definition sum_short (a : list float) : float :=
  fold_left PrimFloat.add a neg_zero.

(** Eight running sums [r], to which the next eight entries of [a] are
    added, [blocks] times over; what is left of [a] comes back. *)
Fixpoint add_blocks (blocks : nat) (r a : list float) : list float * list float :=
  match blocks with
  | O => (r, a)
  | S b => add_blocks b (zip_with PrimFloat.add r (firstn 8 a)) (skipn 8 a)
  end.

Definition tree8 (r : list float) : float :=
  match r with
  | [r0; r1; r2; r3; r4; r5; r6; r7] =>
      (((r0 + r1) + (r2 + r3)) + ((r4 + r5) + (r6 + r7)))%float
  | _ => nan
  end.

(** The sum of 8 to 128 entries: eight running sums over the blocks of
    eight, added up as a tree, then the entries after the last whole
    block one by one. *)
Definition sum_unrolled (a : list float) : float :=
  let '(r, rest) := add_blocks (List.length a / 8 - 1) (firstn 8 a) (skipn 8 a) in
  fold_left PrimFloat.add rest (tree8 r).

(** [pairwise_sum] of NumPy's [loops_utils.h.src]: longer arrays are
    cut in two near the middle, at a multiple of eight.  [depth] bounds
    the number of cuts; the length of the array is always enough. *)
Fixpoint pairwise_sum (depth : nat) (a : list float) : float :=
  let n := List.length a in
  if (n <? 8)%nat then sum_short a
  else if (n <=? 128)%nat then sum_unrolled a
  else match depth with
       | O => sum_unrolled a
       | S depth' =>
           let n2 := (n / 2 - (n / 2) mod 8)%nat in
           (pairwise_sum depth' (firstn n2 a) + pairwise_sum depth' (skipn n2 a))%float
       end.

(** [a.sum()] on a one-dimensional float64 array. *)
Definition np_sum (a : list float) : float :=
  match a with
  | [] => 0%float
  | _ :: _ => pairwise_sum (List.length a) a
  end.

(** [np.minimum] and [np.maximum] on two floats that are not NaN. *)
Definition fmin (a b : float) : float := if (b <? a)%float then b else a.
Definition fmax (a b : float) : float := if (a <? b)%float then b else a.

End Numpy.

Export Numpy.

(** The reductions of a [Series] follow pandas' [nanops] (the optional
    bottleneck package is not used): NaN entries are skipped.  For the
    mean they are replaced by 0 and the sum is divided by the number of
    the other entries; the variance is computed in two passes, with
    divisor [count - ddof], and is NaN when the count is not above
    [ddof]; for the minimum and the maximum they are replaced by
    infinities, and the result is NaN when every entry is NaN. *)

Module Pandas.

Definition fillna (v : float) (l : list float) : list float :=
  List.map (fun x => if is_nan x then v else x) l.

(** Number of entries that are not NaN. *)
Definition count (l : list float) : Z :=
  len (List.filter (fun x => negb (is_nan x)) l).

(** [Series.mean()] *)
Definition series_mean (l : list float) : float :=
  if count l <=? 0 then nan
  else (np_sum (fillna 0 l) / float_of_Z (count l))%float.

(** [Series.min()] *)
Definition series_min (l : list float) : float :=
  if count l <=? 0 then nan
  else match fillna infinity l with
       | [] => nan
       | x :: l' => fold_left fmin l' x
       end.

(** [Series.max()] *)
Definition series_max (l : list float) : float :=
  if count l <=? 0 then nan
  else match fillna neg_infinity l with
       | [] => nan
       | x :: l' => fold_left fmax l' x
       end.

(** The squared deviations from [avg], 0 where the entry is NaN. *)
Definition sq_devs (avg : float) (l : list float) : list float :=
  List.map (fun x => if is_nan x then 0%float else ((avg - x) * (avg - x))%float) l.

(** [Series.var(ddof)] *)
Definition series_var (ddof : Z) (l : list float) : float :=
  if count l <=? ddof then nan
  else
    let avg := (np_sum (fillna 0 l) / float_of_Z (count l))%float in
    (np_sum (sq_devs avg l) / float_of_Z (count l - ddof))%float.

(** [Series.std()]: the default is [ddof = 1]. *)
Definition series_std (l : list float) : float :=
  PrimFloat.sqrt (series_var 1 l).

(** [Series.value_counts().to_dict()]: occurrences of each value. *)
Definition value_counts (l : list Z) : gmap Z Z :=
  fold_left (fun m x => <[x := 1 + default 0 (m !! x)]> m) l ∅.

End Pandas.

Export Pandas.

(** The population standard deviation (divisor [n]). *)
Definition population_std (l : list float) : float :=
  PrimFloat.sqrt (series_var 0 l).

(** [float_sum_of l s]: the float [s] is a sum of the entries of [l],
    each taken once, added in some order and some grouping.  The empty
    sum is the negative zero, the neutral element of float addition. *)
Inductive float_sum_of : list float -> float -> Prop :=
| sum_none : float_sum_of [] neg_zero
| sum_one (x : float) : float_sum_of [x] x
| sum_add (l1 l2 : list float) (s1 s2 : float) :
    float_sum_of l1 s1 -> float_sum_of l2 s2 ->
    float_sum_of (l1 ++ l2) (s1 + s2)%float
| sum_perm (l l' : list float) (s : float) :
    l ≡ₚ l' -> float_sum_of l s -> float_sum_of l' s.

(** ** HTTP exchanges *)

Module Http.

Definition lower_ascii (c : ascii) : ascii :=
  let n := N_of_ascii c in
  if ((65 <=? n) && (n <=? 90))%N then ascii_of_N (n + 32) else c.

Fixpoint lower (s : string) : string :=
  match s with
  | String c s' => String (lower_ascii c) (lower s')
  | EmptyString => EmptyString
  end.

(** A received response.  [resp_headers] is the case-insensitive
    header dictionary of [requests], keyed by lower-cased name. *)
Record Response := {
  resp_status : Z;
  resp_headers : gmap string string;
  resp_text : string
}.

(** [headers.get(name, default)] *)
Definition headers_get (hs : gmap string string) (name dflt : string) : string :=
  default dflt (hs !! lower name).

(** What [session.get(url)] does: it returns a response, or raises an
    exception [e], of which the code only reads [str(e)]. *)
Inductive Outcome :=
| Answered (response : Response)
| Failed (str_e : string).

(** One call as the environment decides it: the outcome, the two
    readings of [time.time()] around it, and [datetime.now().isoformat()]
    when the record is built. *)
Record Exchange := {
  ex_outcome : Outcome;
  ex_start : float;
  ex_end : float;
  ex_now : string
}.

(** The status line of an HTTP response carries three digits. *)
Definition http_status (s : Z) : Prop := 100 <= s <= 999.

End Http.

Export Http.

(** ** Records, events and the harness state *)

(** The dictionary that [make_request] builds. *)
Record RequestRecord := {
  timestamp : string;
  endpoint : string;
  status_code : Z;
  response_time_ms : float;
  rate_limit_remaining : string;
  rate_limit_limit : string;
  rate_limit_reset : string;
  success : bool;
  error : option string
}.

(** The sentinel stored when a rate-limit header is not available. *)
Definition NA : string := "N/A".

(** Values stored in the analysis dictionary. *)
Inductive pyval :=
| PInt (z : Z)
| PFloat (x : float)
| PCounts (m : gmap Z Z).

(** Lines written by [print]; numbers are kept unformatted. *)
Inductive Msg :=
| MsgText (s : string)
| MsgBurstStart (n : Z)
| MsgSustainedStart (n : Z) (interval : float)
| MsgDelayedStart (n : Z)
| MsgRequest (i n : Z)
| MsgRequestDelay (i n : Z) (delay : float)
| MsgSaved (filename : string)
| MsgReport (analysis : gmap string pyval).

(** Effects on the outside world, in the order they happen. *)
Inductive Event :=
| EvGet (base endpoint : string)       (* session.get(base + endpoint) *)
| EvSleep (secs : float)               (* time.sleep(secs) *)
| EvPrint (m : Msg)                    (* print(...) *)
| EvWrite (path : string).             (* a file is written *)

Definition is_get (e : Event) : bool :=
  match e with EvGet _ _ => true | _ => false end.

(** Number of GET requests in a trace. *)
Definition gets (tr : list Event) : nat := List.length (List.filter is_get tr).

(** Durations of the sleeps in a trace, in order. *)
Fixpoint sleeps (tr : list Event) : list float :=
  match tr with
  | [] => []
  | EvSleep d :: tr' => d :: sleeps tr'
  | _ :: tr' => sleeps tr'
  end.

(** The object [self]. *)
Record Tester := {
  token : string;
  base_url : string;
  session_headers : list (string * string);
  results : list RequestRecord
}.

(** The tester and the effects so far.  No method assigns to a record
    once it is built, so records are plain values. *)
Record State := {
  self : Tester;
  trace : list Event
}.

Definition set_results (t : Tester) (rs : list RequestRecord) : Tester :=
  {| token := token t; base_url := base_url t;
     session_headers := session_headers t; results := rs |}.

(** Methods run in a state monad with exceptions. *)
Definition M (A : Type) : Type := State -> result A * State.

Definition ret {A} (a : A) : M A := fun s => (Ok a, s).

Definition bind {A B} (m : M A) (f : A -> M B) : M B :=
  fun s =>
    match m s with
    | (Ok a, s') => f a s'
    | (Raise e, s') => (Raise e, s')
    end.

Declare Scope py_scope.
Delimit Scope py_scope with py.
Notation "'let!' x ':=' m 'in' k" := (bind m (fun x => k))
  (at level 20, x name, m at level 100, k at level 200) : py_scope.
Notation "m ;;; k" := (bind m (fun _ => k))
  (at level 100, k at level 200, right associativity) : py_scope.

Definition emit (e : Event) : M unit :=
  fun s => (Ok tt, {| self := self s; trace := trace s ++ [e] |}).

Definition print (m : Msg) : M unit := emit (EvPrint m).
Definition lift {A} (r : result A) : M A := fun s => (r, s).

(** The error with which [time.sleep(secs)] refuses a duration: NaN, a
    negative number, or a number of nanoseconds that is no 64-bit
    integer.  The number of nanoseconds is the rounded product
    [secs * 1e9]; when it is 2^63 the conversion wraps around to a
    negative number. *)
Definition sleep_error (secs : float) : option exn :=
  let ns := (secs * 1000000000)%float in
  let bound := 9223372036854775808%float in
  if is_nan secs
  then Some (ValueError "Invalid value NaN (not a number)")
  else if (bound <? ns)%float || (ns <? - bound)%float
  then Some OverflowError
  else if (ns <? 0)%float || (ns =? bound)%float
  then Some (ValueError "sleep length must be non-negative")
  else None.

(** [time.sleep(secs)].  An accepted duration is slept; that the
    operating system takes the deadline is assumed, which holds for
    every duration up to [sleep_max] seconds. *)
Definition sleep (secs : float) : M unit :=
  match sleep_error secs with
  | Some e => lift (Raise e)
  | None => emit (EvSleep secs)
  end.

Definition sleep_max : float := 1000000000%float.

(** A duration that [time.sleep] accepts and sleeps. *)
Definition sleep_ok (secs : float) : bool :=
  match sleep_error secs with
  | Some _ => false
  | None => (secs <=? sleep_max)%float
  end.

(** [open(path, 'w')]: the empty name and a name with a NUL character
    are refused; any other name is assumed to denote a file that can be
    written in the working directory. *)
Definition has_nul (path : string) : bool :=
  existsb (Ascii.eqb zero) (list_ascii_of_string path).

Definition open_error (path : string) : option exn :=
  match path with
  | EmptyString => Some (FileNotFoundError path)
  | String _ _ =>
      if has_nul path then Some (ValueError "embedded null byte") else None
  end.

Definition open_w (path : string) : M unit :=
  match open_error path with
  | Some e => lift (Raise e)
  | None => ret tt
  end.

(** [f"{v:.2f}"]: a number is formatted, a dictionary refuses the
    format. *)
Definition format_2f (v : pyval) : result unit :=
  match v with
  | PCounts _ => Raise (TypeError "unsupported format string passed to dict.__format__")
  | _ => Ok tt
  end.

(** [v.items()] *)
Definition items (v : pyval) : result (gmap Z Z) :=
  match v with
  | PCounts m => Ok m
  | _ => Raise (AttributeError "items")
  end.

(** [for x in l: acc = body(x, acc)] *)
Fixpoint for_each {A S} (l : list A) (body : A -> S -> M S) (acc : S) : M S :=
  match l with
  | [] => ret acc
  | x :: l' => bind (body x acc) (for_each l' body)
  end.

(** ** GitHubAPITester *)

Definition token_required : string :=
  "GitHub token is required. Either pass it as an argument or set GITHUB_TOKEN environment variable.".

(** [os.getenv(name)] *)
Definition getenv (environ : gmap string string) (name : string) : option string :=
  environ !! name.

(** [GitHubAPITester.__init__] *)
Definition init (tok : option string) (base : string) (environ : gmap string string)
  : result Tester :=
  match or_else tok (getenv environ "GITHUB_TOKEN") with
  | Some (String c t) =>
      Ok {| token := String c t;
            base_url := base;
            session_headers :=
              [("Authorization", "token " ++ String c t);
               ("Accept", "application/vnd.github.v3+json");
               ("User-Agent", "GitHub-API-Tester/1.0")]%string;
            results := [] |}
  | _ => Raise (ValueError token_required)
  end.

(** A line break, and [c * n] for a one-character string [c]. *)
Definition nl : string := String (ascii_of_nat 10) EmptyString.

Fixpoint rule (c : string) (n : nat) : string :=
  match n with
  | O => EmptyString
  | S n' => (c ++ rule c n')%string
  end.

Definition default_base_url : string := "https://api.github.com".
Definition default_endpoint : string := "/users/octocat".

(** The dictionary built from one exchange (lines 69-105). *)
Definition build_record (ep : string) (ex : Exchange) : RequestRecord :=
  let response_time := ((ex_end ex - ex_start ex) * 1000)%float in
  match ex_outcome ex with
  | Answered response =>
      let remaining := headers_get (resp_headers response) "X-RateLimit-Remaining" NA in
      let limit := headers_get (resp_headers response) "X-RateLimit-Limit" NA in
      let reset := headers_get (resp_headers response) "X-RateLimit-Reset" NA in
      {| timestamp := ex_now ex;
         endpoint := ep;
         status_code := resp_status response;
         response_time_ms := response_time;
         rate_limit_remaining := remaining;
         rate_limit_limit := limit;
         rate_limit_reset := reset;
         success := resp_status response =? 200;
         error := if negb (resp_status response =? 200)
                  then Some (slice_to 200 (resp_text response))
                  else None |}
  | Failed str_e =>
      {| timestamp := ex_now ex;
         endpoint := ep;
         status_code := 0;
         response_time_ms := response_time;
         rate_limit_remaining := NA;
         rate_limit_limit := NA;
         rate_limit_reset := NA;
         success := false;
         error := Some str_e |}
  end.

(** Records with rate-limit data (line 234). *)
Definition rate_limit_data (rs : list RequestRecord) : list RequestRecord :=
  List.filter (fun r => negb (String.eqb (rate_limit_remaining r) NA)) rs.

(** The dictionary literal of [analyze_results] (lines 218-231). *)
Definition basic_statistics (rs : list RequestRecord) : gmap string pyval :=
  let successful_requests := List.filter (fun r => Bool.eqb (success r) true) rs in
  let failed_requests := List.filter (fun r => Bool.eqb (success r) false) rs in
  let times := List.map response_time_ms rs in
  <["status_code_counts" := PCounts (value_counts (List.map status_code rs))]>
  (<["std_response_time_ms" := PFloat (series_std times)]>
  (<["max_response_time_ms" := PFloat (series_max times)]>
  (<["min_response_time_ms" := PFloat (series_min times)]>
  (<["avg_response_time_ms" := PFloat (series_mean times)]>
  (<["success_rate" :=
       PFloat (int_truediv (len successful_requests) (len rs) * 100)%float]>
  (<["failed_requests" := PInt (len failed_requests)]>
  (<["successful_requests" := PInt (len successful_requests)]>
  (<["total_requests" := PInt (len rs)]> ∅)))))))).

Section Harness.

(** The environment: [net k] is the exchange that the k-th GET of the
    run meets (k counted from 0). *)
Variable net : nat -> Exchange.

(** [pd.to_numeric(_, errors='coerce')] on one string of the column:
    the number it denotes, NaN when it denotes none.  pandas is not
    part of the repository, so the conversion is a parameter; a column
    of integers is represented by the floats of its entries. *)
Variable to_numeric : string -> float.

(** [make_request] *)
Definition make_request (ep : string) : M RequestRecord :=
  fun s =>
    let ex := net (gets (trace s)) in
    let result := build_record ep ex in
    (Ok result,
     {| self := set_results (self s) (results (self s) ++ [result]);
        trace := trace s ++ [EvGet (base_url (self s)) ep] |}).

(** [test_burst_pattern] *)
Definition test_burst_pattern (num_requests : Z) (ep : string)
  : M (list RequestRecord) :=
  (print (MsgBurstStart num_requests) ;;;
   for_each (range num_requests)
     (fun i results =>
        print (MsgRequest (i + 1) num_requests) ;;;
        let! result := make_request ep in
        ret (results ++ [result]))
     [])%py.

(** [test_sustained_pattern] *)
Definition test_sustained_pattern (num_requests : Z) (interval : float) (ep : string)
  : M (list RequestRecord) :=
  (print (MsgSustainedStart num_requests interval) ;;;
   for_each (range num_requests)
     (fun i results =>
        print (MsgRequest (i + 1) num_requests) ;;;
        let! result := make_request ep in
        (if i <? num_requests - 1 then sleep interval else ret tt) ;;;
        ret (results ++ [result]))
     [])%py.

(** [test_delayed_pattern]; the loop carries [results] and
    [current_delay]. *)
Definition test_delayed_pattern (num_requests : Z) (initial_delay delay_increment : float)
    (ep : string) : M (list RequestRecord) :=
  (print (MsgDelayedStart num_requests) ;;;
   let! acc := for_each (range num_requests)
     (fun i '(results, current_delay) =>
        print (MsgRequestDelay (i + 1) num_requests current_delay) ;;;
        let! result := make_request ep in
        if i <? num_requests - 1
        then sleep current_delay ;;;
             ret (results ++ [result], (current_delay + delay_increment)%float)
        else ret (results ++ [result], current_delay))
     ([], initial_delay) in
   ret (fst acc))%py.

(** [save_results]; the CSV text itself is not modelled.  Every record
    has the keys of the first one, so the writer accepts all rows. *)
Definition save_results (filename : string) : M unit :=
  fun s =>
    match results (self s) with
    | [] => print (MsgText "No results to save.") s
    | _ :: _ =>
        (open_w filename ;;;
         emit (EvWrite filename) ;;;
         print (MsgSaved filename))%py s
    end.

(** The body of [analyze_results] on the list [self.results].  The
    remaining quota is the entry of the converted column, as a float.
    The limit is a Python int: one of at most 64 bits is divided as its
    float, and one that rounds beyond the largest float raises
    [OverflowError].  For a limit between the two the outcome depends
    on the dtype of the column and on the version of NumPy; the model
    divides by its float, as NumPy does for a float64 column. *)
Definition analyze (rs : list RequestRecord) : result (gmap string pyval) :=
  match rs with
  | [] => Ok ∅
  | _ :: _ =>
      let analysis := basic_statistics rs in
      match rate_limit_data rs with
      | [] => Ok analysis
      | first :: rest =>
          let final := to_numeric (rate_limit_remaining (List.last rest first)) in
          match py_int (rate_limit_limit first) with
          | None => Raise (InvalidLiteral (rate_limit_limit first))
          | Some limit =>
              match to_float limit with
              | Raise e => Raise e
              | Ok divisor =>
                  Ok (<["rate_limit_usage" :=
                          PFloat (100 - final / divisor * 100)%float]>
                      (<["final_rate_limit_remaining" := PFloat final]> analysis))
              end
          end
      end
  end.

(** [analyze_results] *)
Definition analyze_results : M (gmap string pyval) :=
  fun s => lift (analyze (results (self s))) s.

(** [create_visualizations]; the picture itself is not modelled. *)
Definition create_visualizations : M unit :=
  fun s =>
    match results (self s) with
    | [] => print (MsgText "No results to visualize.") s
    | _ :: _ =>
        (open_w "api_test_visualization.png" ;;;
         emit (EvWrite "api_test_visualization.png") ;;;
         print (MsgText "Visualizations saved to 'api_test_visualization.png'"))%py s
    end.

(** What building the report text can raise, in the order of
    evaluation: the five [:.2f] fields of the template, the loop over
    the status codes, then the rate-limit section (lines 318-321), which
    subscripts ['rate_limit_usage']. *)
Definition report_text (analysis : gmap string pyval) : result unit :=
  let field k := format_2f (default (PInt 0) (analysis !! k)) in
  match field "success_rate" with Raise e => Raise e | Ok _ =>
  match field "avg_response_time_ms" with Raise e => Raise e | Ok _ =>
  match field "min_response_time_ms" with Raise e => Raise e | Ok _ =>
  match field "max_response_time_ms" with Raise e => Raise e | Ok _ =>
  match field "std_response_time_ms" with Raise e => Raise e | Ok _ =>
  match items (default (PCounts ∅) (analysis !! "status_code_counts")) with
  | Raise e => Raise e
  | Ok _ =>
      match analysis !! "final_rate_limit_remaining" with
      | None => Ok tt
      | Some _ =>
          match analysis !! "rate_limit_usage" with
          | None => Raise (KeyError "rate_limit_usage")
          | Some usage => format_2f usage
          end
      end
  end end end end end end.

(** [generate_report]; the report is built before the file is opened,
    and its text is kept as the analysis it was built from. *)
Definition generate_report (analysis : gmap string pyval) : M unit :=
  (lift (report_text analysis) ;;;
   open_w "api_test_report.txt" ;;;
   emit (EvWrite "api_test_report.txt") ;;;
   print (MsgText "Report saved to 'api_test_report.txt'") ;;;
   print (MsgReport analysis))%py.

(** The run of [main] once the tester exists (lines 344-374). *)
Definition run_tests : M unit :=
  (print (MsgText "Starting GitHub API Rate Limit Tests...") ;;;
   print (MsgText (rule "=" 50)) ;;;
   print (MsgText (nl ++ "1. Testing Burst Pattern (10 rapid requests)")) ;;;
   print (MsgText (rule "-" 40)) ;;;
   let! _ := test_burst_pattern 10 default_endpoint in
   print (MsgText (nl ++ "2. Testing Sustained Pattern (20 requests at 0.5s intervals)")) ;;;
   print (MsgText (rule "-" 40)) ;;;
   let! _ := test_sustained_pattern 20 0.5%float default_endpoint in
   print (MsgText (nl ++ "3. Testing Delayed Pattern (15 requests with increasing delays)")) ;;;
   print (MsgText (rule "-" 40)) ;;;
   let! _ := test_delayed_pattern 15 1%float 0.5%float default_endpoint in
   print (MsgText (nl ++ rule "=" 50)) ;;;
   print (MsgText "Analyzing Results...") ;;;
   save_results "github_api_test_results.csv" ;;;
   let! analysis := analyze_results in
   create_visualizations ;;;
   generate_report analysis ;;;
   print (MsgText (nl ++ rule "=" 50)) ;;;
   print (MsgText "Test completed successfully!") ;;;
   print (MsgText "Check the following files:") ;;;
   print (MsgText "- github_api_test_results.csv (raw data)") ;;;
   print (MsgText "- api_test_visualization.png (charts)") ;;;
   print (MsgText "- api_test_report.txt (summary)"))%py%string.

(** [main]: what the call returns, and the effects it had. *)
Definition main (environ : gmap string string) : result unit * list Event :=
  let tok := getenv environ "GITHUB_TOKEN" in
  if negb (truthy tok)
  then (Ok tt,
        [EvPrint (MsgText "Error: GITHUB_TOKEN environment variable is not set.");
         EvPrint (MsgText "Please set it with: export GITHUB_TOKEN=your_token_here")])
  else
    match init tok default_base_url environ with
    | Raise e => (Raise e, [])
    | Ok tester =>
        let '(r, s) := run_tests {| self := tester; trace := [] |} in
        (r, trace s)
    end.

(** The script [if __name__ == "__main__": main()]: the interpreter
    exits with status 0 when [main] returns and with status 1 when an
    exception escapes. *)
Definition exit_status (r : result unit) : Z :=
  match r with
  | Ok _ => 0
  | Raise _ => 1
  end.

Definition script (environ : gmap string string) : Z * list Event :=
  let '(r, tr) := main environ in (exit_status r, tr).

End Harness.

(** ** Clients of the harness

    A client is any sequence of method calls on one tester.  A call that
    raises leaves the state as it was at the raise, and the client goes
    on with the next call. *)

Inductive Op :=
| OpRequest (ep : string)
| OpBurst (n : Z) (ep : string)
| OpSustained (n : Z) (interval : float) (ep : string)
| OpDelayed (n : Z) (initial_delay delay_increment : float) (ep : string)
| OpSave (filename : string)
| OpAnalyze
| OpVisualize
| OpReport (analysis : gmap string pyval).

(** The endpoints of the executor calls that an operation asks for.  A
    pattern makes them all unless one of its sleeps raises. *)
Definition requested (o : Op) : list string :=
  match o with
  | OpRequest ep => [ep]
  | OpBurst n ep => repeat ep (Z.to_nat n)
  | OpSustained n _ ep => repeat ep (Z.to_nat n)
  | OpDelayed n _ _ ep => repeat ep (Z.to_nat n)
  | _ => []
  end.

(** A delay that starts at [d] and grows by [inc] after each sleep. *)
Fixpoint delays (d inc : float) (k : nat) : list float :=
  match k with
  | O => []
  | S k' => d :: delays (d + inc)%float inc k'
  end.

Definition nth_delay (d inc : float) (k : nat) : float :=
  Nat.iter k (fun x => (x + inc)%float) d.

Section Clients.

Variable net : nat -> Exchange.
Variable to_numeric : string -> float.

Definition run_op (o : Op) (s : State) : State :=
  match o with
  | OpRequest ep => snd (make_request net ep s)
  | OpBurst n ep => snd (test_burst_pattern net n ep s)
  | OpSustained n i ep => snd (test_sustained_pattern net n i ep s)
  | OpDelayed n d inc ep => snd (test_delayed_pattern net n d inc ep s)
  | OpSave f => snd (save_results f s)
  | OpAnalyze => snd (analyze_results to_numeric s)
  | OpVisualize => snd (create_visualizations s)
  | OpReport a => snd (generate_report a s)
  end.

Definition exec (ops : list Op) (s : State) : State :=
  fold_left (fun s o => run_op o s) ops s.

(** The records of the calls to the endpoints [eps], the first of
    which is the [k]-th GET of the run. *)
Fixpoint records_from (k : nat) (eps : list string) : list RequestRecord :=
  match eps with
  | [] => []
  | ep :: eps' => build_record ep (net k) :: records_from (S k) eps'
  end.

End Clients.

(** ** Invariant of the request loops

    After [k] calls to [ep] from the state [s0], the result list has
    grown by the [k] records [new], in call order, and [k] GETs went out. *)

Definition calls_done (net : nat -> Exchange) (ep : string) (s0 s : State)
    (k : nat) (new : list RequestRecord) : Prop :=
  results (self s) = results (self s0) ++ new /\
  new = records_from net (gets (trace s0)) (repeat ep k) /\
  gets (trace s) = (gets (trace s0) + k)%nat.

(** The trace ends with a GET to [ep]. *)
Definition ends_with_get (ep : string) (tr : list Event) : Prop :=
  exists pre b, tr = pre ++ [EvGet b ep].

(** ** Conditions on the inputs *)

(** An outcome as the HTTP client delivers it: a response carries a
    three-digit status. *)
Definition well_formed (o : Outcome) : Prop :=
  match o with
  | Answered response => http_status (resp_status response)
  | Failed _ => True
  end.

(** A header value that denotes a machine integer: [int()] accepts it
    and it fits 64 bits, so the division by it is a float division. *)
Definition numeric_limit (text : string) : bool :=
  match py_int text with
  | Some n => (- 2 ^ 63 <=? n) && (n <? 2 ^ 63)
  | None => false
  end.

(** [successes / total * 100] *)
Definition success_rate_of (successes total : Z) : float :=
  (float_of_Z successes / float_of_Z total * 100)%float.

(** Number of records whose [success] flag is [b]. *)
Definition count_success (b : bool) (rs : list RequestRecord) : Z :=
  Z.of_nat (count_occ bool_dec (List.map success rs) b).

(** ** Sample data *)

Module Sample.

(** The coercion on integer literals; any other text becomes NaN. *)
Definition to_numeric (s : string) : float :=
  match py_int s with
  | Some n => float_of_Z n
  | None => nan
  end.

Definition rate_headers (remaining limit reset : string) : gmap string string :=
  <["x-ratelimit-remaining" := remaining]>
  (<["x-ratelimit-limit" := limit]>
  (<["x-ratelimit-reset" := reset]> ∅)).

Definition exchange (o : Outcome) : Exchange :=
  {| ex_outcome := o; ex_start := 10%float; ex_end := 10.125%float;
     ex_now := "2024-01-01T00:00:00" |}.

(** Every GET is answered with status 200 and the usual headers. *)
Definition net (k : nat) : Exchange :=
  exchange (Answered {| resp_status := 200;
                        resp_headers := rate_headers "4999" "5000" "1700000000";
                        resp_text := "{}" |}).

(** Every GET fails before a response arrives, with an exception whose
    text is empty (such as [MemoryError()]). *)
Definition net_down (k : nat) : Exchange := exchange (Failed "").

Definition tester : Tester :=
  {| token := "t0ken"; base_url := default_base_url;
     session_headers := []; results := [] |}.

Definition fresh : State := {| self := tester; trace := [] |}.

(** A record as a test writes it: status, latency, no rate-limit data. *)
Definition record (status : Z) (ms : float) : RequestRecord :=
  {| timestamp := "2024-01-01T00:00:00"; endpoint := default_endpoint;
     status_code := status; response_time_ms := ms;
     rate_limit_remaining := NA; rate_limit_limit := NA; rate_limit_reset := NA;
     success := status =? 200;
     error := if status =? 200 then None else Some "Forbidden" |}.

Definition five : list RequestRecord :=
  [record 200 100; record 200 110; record 200 90; record 200 105; record 403 120].

(** A response that carries X-RateLimit-Remaining but no
    X-RateLimit-Limit, and the usual response after it. *)
Definition no_limit : Exchange :=
  exchange (Answered {| resp_status := 200;
                        resp_headers := <["x-ratelimit-remaining" := "4999"]> ∅;
                        resp_text := "{}" |}).

Definition usual : Exchange :=
  exchange (Answered {| resp_status := 200;
                        resp_headers := rate_headers "4998" "5000" "1700000000";
                        resp_text := "{}" |}).

Definition net_no_limit (k : nat) : Exchange :=
  match k with
  | O => no_limit
  | _ => usual
  end.

(** The float nearest to 0.1. *)
Definition tenth : float := 0x1.999999999999ap-4%float.

(** A response whose X-RateLimit-Remaining header reads N/A. *)
Definition literal_na : Exchange :=
  exchange (Answered {| resp_status := 200;
                        resp_headers := rate_headers "N/A" "5000" "1700000000";
                        resp_text := "{}" |}).

Definition net_literal_na (k : nat) : Exchange := literal_na.

End Sample.

(** ** Observations on testers, traces and summaries *)

(** What [__init__] fixes for the lifetime of a tester. *)
Definition config (t : Tester) : string * string * list (string * string) :=
  (token t, base_url t, session_headers t).

(** The endpoints of the GETs in a trace, in order. *)
Fixpoint get_endpoints (tr : list Event) : list string :=
  match tr with
  | [] => []
  | EvGet _ ep :: tr' => ep :: get_endpoints tr'
  | _ :: tr' => get_endpoints tr'
  end.

(** The files written in a trace, in order. *)
Fixpoint writes (tr : list Event) : list string :=
  match tr with
  | [] => []
  | EvWrite path :: tr' => path :: writes tr'
  | _ :: tr' => writes tr'
  end.

(** A GET, if the event is one, goes to the base URL [base]. *)
Definition goes_to (base : string) (e : Event) : Prop :=
  match e with
  | EvGet b _ => b = base
  | _ => True
  end.

(** An effect of a timing pattern on the endpoint [ep]: a printed line,
    a sleep, or a GET of [ep] at [base]. *)
Definition pattern_event (base ep : string) (e : Event) : Prop :=
  match e with
  | EvGet b e' => b = base /\ e' = ep
  | EvWrite _ => False
  | _ => True
  end.

(** Number of records with the status [code]. *)
Definition count_status (code : Z) (rs : list RequestRecord) : Z :=
  Z.of_nat (count_occ Z.eq_dec (List.map status_code rs) code).

(** Texts made of decimal digits only, as GitHub sends its rate-limit
    headers, and the numbers they denote. *)
Fixpoint all_digits (s : string) : bool :=
  match s with
  | EmptyString => true
  | String c s' =>
      match digit_of c with
      | Some _ => all_digits s'
      | None => false
      end
  end.

Definition is_decimal (s : string) : bool :=
  match s with
  | EmptyString => false
  | String _ _ => all_digits s && (String.length s <=? int_max_str_digits)%nat
  end.

Fixpoint decimal_from (acc : Z) (s : string) : Z :=
  match s with
  | EmptyString => acc
  | String c s' => decimal_from (10 * acc + default 0 (digit_of c)) s'
  end.

Definition decimal_value (s : string) : Z := decimal_from 0 s.

(** From [s0] to [s] the configuration of the tester is the same and
    the trace has only grown, by events that satisfy [Q]. *)
Definition grows (Q : Event -> Prop) (s0 s : State) : Prop :=
  config (self s) = config (self s0) /\
  exists added, trace s = trace s0 ++ added /\ List.Forall Q added.

(** What holds during a timing pattern on [ep] that started in [s0],
    once [j] iterations have begun: at most [j] calls are done, and the
    effects so far are those of the pattern. *)
Definition pattern_inv (net : nat -> Exchange) (ep : string) (s0 : State)
    (j : nat) (st : State) : Prop :=
  exists (k : nat) (new : list RequestRecord),
    (k <= j)%nat /\
    calls_done net ep s0 st k new /\
    grows (pattern_event (base_url (self s0)) ep) s0 st.

(** The sleeps that a pattern with the given arguments asks for are all
    accepted. *)
Definition valid_op (o : Op) : bool :=
  match o with
  | OpSustained n interval _ => forallb sleep_ok (repeat interval (Z.to_nat n - 1)%nat)
  | OpDelayed n d inc _ => forallb sleep_ok (delays d inc (Z.to_nat n - 1)%nat)
  | _ => true
  end.

(** The rate-limit section of [generate_report] (lines 318-321): it is
    left out when the analysis has no ['final_rate_limit_remaining'];
    otherwise it reads ['rate_limit_usage'] by subscript, which raises
    [KeyError] for a missing key.  [None] stands for that error. *)
Definition report_rate_limit (analysis : gmap string pyval)
  : option (option (pyval * pyval)) :=
  match analysis !! "final_rate_limit_remaining"%string with
  | None => Some None
  | Some final =>
      match analysis !! "rate_limit_usage"%string with
      | Some usage => Some (Some (final, usage))
      | None => None
      end
  end.

(** ** More sample data *)

Module Demo.

(** The record of a usual response: 4999 of 5000 calls left. *)
Definition full : RequestRecord := build_record default_endpoint (Sample.net 0).

(** The record of a response whose limit header is not a number. *)
Definition odd : RequestRecord :=
  build_record default_endpoint
    (Sample.exchange
       (Answered {| resp_status := 200;
                    resp_headers := Sample.rate_headers "4000" "unlimited" "0";
                    resp_text := "{}" |})).

(** The record of a response whose limit header has 310 digits: a 1
    followed by 309 zeros. *)
Definition huge : RequestRecord :=
  build_record default_endpoint
    (Sample.exchange
       (Answered {| resp_status := 200;
                    resp_headers := Sample.rate_headers "4999" ("1" ++ rule "0" 309) "0";
                    resp_text := "{}" |})).

(** The result list after a burst of three calls on a new tester. *)
Definition three : list RequestRecord :=
  results (self (exec Sample.net Sample.to_numeric [OpBurst 3 default_endpoint]
                   {| self := set_results Sample.tester []; trace := [] |})).


End Demo.

(** * Properties *)

(** Looks up a literal key in a dictionary built by inserts. *)
Ltac lookup_literal :=
  repeat (rewrite lookup_insert_ne by discriminate);
  first [apply lookup_insert_eq | apply lookup_empty].

(** ** The monad and the traces *)

Lemma gets_app (a b : list Event) : gets (a ++ b) = (gets a + gets b)%nat.
Proof. unfold gets. now rewrite List.filter_app, List.length_app. Qed.

Lemma gets_snoc (tr : list Event) (e : Event) :
  gets (tr ++ [e]) = (gets tr + (if is_get e then 1 else 0))%nat.
Proof. rewrite gets_app. unfold gets. simpl. now destruct (is_get e). Qed.

Lemma sleeps_app (a b : list Event) : sleeps (a ++ b) = sleeps a ++ sleeps b.
Proof.
  induction a as [|e a IH]; [reflexivity|].
  destruct e; simpl; now rewrite IH.
Qed.

Lemma for_each_inv {A S} (body : A -> S -> M S) (P : list A -> S -> State -> Prop)
    (total : list A) :
  (forall done x rest acc s,
      total = done ++ x :: rest -> P done acc s ->
      exists acc' s', body x acc s = (Ok acc', s') /\ P (done ++ [x]) acc' s') ->
  forall rest done acc s,
    total = done ++ rest -> P done acc s ->
    exists acc' s', for_each rest body acc s = (Ok acc', s') /\ P total acc' s'.
Proof.
  intros Hstep rest.
  induction rest as [|x rest IH]; intros done acc s Htot HP.
  - rewrite List.app_nil_r in Htot. subst done. exists acc, s. now split.
  - destruct (Hstep done x rest acc s Htot HP) as (acc' & s' & Hb & HP').
    destruct (IH (done ++ [x]) acc' s') as (acc'' & s'' & Hf & HP''); [|assumption|].
    + now rewrite <- List.app_assoc.
    + exists acc'', s''. split; [|assumption].
      simpl. unfold bind. now rewrite Hb.
Qed.

Lemma range_split (n : Z) (done rest : list Z) (x : Z) :
  range n = done ++ x :: rest ->
  x = Z.of_nat (List.length done) /\ (List.length done < Z.to_nat n)%nat.
Proof.
  unfold range. intros H.
  assert (Hn : List.nth_error (List.map Z.of_nat (seq 0 (Z.to_nat n))) (List.length done) = Some x).
  { rewrite H, List.nth_error_app2 by lia. now rewrite Nat.sub_diag. }
  rewrite List.nth_error_map in Hn.
  destruct (List.nth_error (seq 0 (Z.to_nat n)) (List.length done)) as [j|] eqn:Hj; [|discriminate].
  assert (Hlt : (List.length done < Z.to_nat n)%nat).
  { assert (Hl := proj1 (List.nth_error_Some (seq 0 (Z.to_nat n)) (List.length done))).
    rewrite List.length_seq in Hl. apply Hl. congruence. }
  rewrite List.nth_error_seq in Hj.
  destruct (Nat.ltb_spec (List.length done) (Z.to_nat n)); [|lia].
  simpl in Hn, Hj. split; [congruence|assumption].
Qed.

Lemma range_length (n : Z) : List.length (range n) = Z.to_nat n.
Proof. unfold range. now rewrite List.length_map, List.length_seq. Qed.

(** ** Growth of the trace *)

Lemma writes_app (a b : list Event) : writes (a ++ b) = writes a ++ writes b.
Proof.
  induction a as [|e a IH]; [reflexivity|].
  destruct e; cbn; now rewrite IH.
Qed.

Lemma grows_refl (Q : Event -> Prop) (s : State) : grows Q s s.
Proof. split; [reflexivity|]. exists []. now rewrite List.app_nil_r. Qed.

Lemma grows_more (Q : Event -> Prop) (s0 s s' : State) (more : list Event) :
  grows Q s0 s ->
  config (self s') = config (self s) ->
  trace s' = trace s ++ more ->
  List.Forall Q more ->
  grows Q s0 s'.
Proof.
  intros (Hc & added & Ht & Hq) Hc' Ht' Hq'. split; [congruence|].
  exists (added ++ more). split.
  - now rewrite Ht', Ht, List.app_assoc.
  - now apply List.Forall_app.
Qed.

Lemma grows_trans (Q : Event -> Prop) (s0 s1 s2 : State) :
  grows Q s0 s1 -> grows Q s1 s2 -> grows Q s0 s2.
Proof.
  intros H01 (Hc & added & Ht & Hq). now apply (grows_more Q s0 s1 s2 added).
Qed.

Lemma grows_weaken (Q Q' : Event -> Prop) (s0 s : State) :
  (forall e, Q e -> Q' e) -> grows Q s0 s -> grows Q' s0 s.
Proof.
  intros HQ (Hc & added & Ht & Hq). split; [assumption|].
  exists added. split; [assumption|]. now apply (List.Forall_impl Q' HQ).
Qed.

Lemma grows_base (Q : Event -> Prop) (s0 s : State) :
  grows Q s0 s -> base_url (self s) = base_url (self s0).
Proof. intros [Hc _]. unfold config in Hc. congruence. Qed.

(** Closes [grows Q s0 st'] for a state [st'] written out as [st] with
    more events appended. *)
Ltac grows_by Hg :=
  eapply grows_more;
  [ exact Hg
  | reflexivity
  | cbn [trace]; rewrite <- ?List.app_assoc; reflexivity
  | cbn [app]; repeat constructor; try (apply (grows_base _ _ _ Hg)) ].

Lemma pattern_events_write_nothing (base ep : string) (added : list Event) :
  List.Forall (pattern_event base ep) added -> writes added = [].
Proof.
  induction 1 as [|e added He _ IH]; [reflexivity|].
  destruct e; cbn in *; try assumption. contradiction.
Qed.

Lemma pattern_event_goes_to (base ep : string) (e : Event) :
  pattern_event base ep e -> goes_to base e.
Proof. destruct e; cbn; tauto. Qed.

(** ** One call and the three loops *)


Lemma delays_nth (d inc : float) (m k : nat) :
  (k < m)%nat -> List.nth_error (delays d inc m) k = Some (nth_delay d inc k).
Proof.
  revert d k. induction m as [|m IH]; intros d k Hk; [lia|].
  destruct k as [|k]; [reflexivity|].
  cbn [delays List.nth_error]. rewrite IH by lia.
  unfold nth_delay. now rewrite Nat.iter_succ_r.
Qed.


Lemma records_from_app net k (a b : list string) :
  records_from net k (a ++ b)
  = records_from net k a ++ records_from net (k + List.length a) b.
Proof.
  revert k. induction a as [|ep a IH]; intros k; simpl.
  - now rewrite Nat.add_0_r.
  - rewrite IH. do 3 f_equal. lia.
Qed.

Lemma records_from_length net k (eps : list string) :
  List.length (records_from net k eps) = List.length eps.
Proof. revert k. induction eps as [|ep eps IH]; intros k; simpl; [|rewrite IH]; reflexivity. Qed.

Lemma repeat_snoc {A} (x : A) (k : nat) : repeat x (S k) = repeat x k ++ [x].
Proof. induction k as [|k IH]; [reflexivity|]. simpl in *. now rewrite <- IH. Qed.

Lemma delays_snoc (d inc : float) (k : nat) :
  delays d inc (S k) = delays d inc k ++ [nth_delay d inc k].
Proof.
  revert d. induction k as [|k IH]; intros d; [reflexivity|].
  change (delays d inc (S (S k))) with (d :: delays (d + inc)%float inc (S k)).
  rewrite IH. unfold nth_delay. rewrite Nat.iter_succ_r. reflexivity.
Qed.

Lemma calls_done_refl net ep s : calls_done net ep s s 0 [].
Proof.
  unfold calls_done. simpl. rewrite List.app_nil_r, Nat.add_0_r. now repeat split.
Qed.

Lemma calls_done_emit net ep s0 s k new e :
  is_get e = false ->
  calls_done net ep s0 s k new ->
  calls_done net ep s0 {| self := self s; trace := trace s ++ [e] |} k new.
Proof.
  intros He (Hr & Hn & Hg). unfold calls_done. simpl.
  rewrite gets_snoc, He.
  repeat split; [assumption|assumption|lia].
Qed.

Lemma call_step net ep s0 s k new :
  calls_done net ep s0 s k new ->
  exists r s',
    make_request net ep s = (Ok r, s') /\
    r = build_record ep (net (gets (trace s0) + k)%nat) /\
    trace s' = trace s ++ [EvGet (base_url (self s)) ep] /\
    calls_done net ep s0 s' (S k) (new ++ [r]).
Proof.
  intros (Hr & Hn & Hg). unfold make_request.
  eexists _, _. split; [reflexivity|]. rewrite Hg.
  split; [reflexivity|]. split; [reflexivity|].
  unfold calls_done. cbn [self trace results set_results]. rewrite Hr, gets_snoc.
  repeat split.
  - now rewrite List.app_assoc.
  - rewrite repeat_snoc, records_from_app, List.repeat_length. simpl. now rewrite Hn.
  - simpl. lia.
Qed.

Lemma sleep_ok_accepted (secs : float) : sleep_ok secs = true -> sleep_error secs = None.
Proof. unfold sleep_ok. destruct (sleep_error secs); [discriminate|reflexivity]. Qed.

Lemma sleep_accepted (secs : float) (s : State) :
  sleep_error secs = None ->
  sleep secs s = (Ok tt, {| self := self s; trace := trace s ++ [EvSleep secs] |}).
Proof. unfold sleep. now intros ->. Qed.

Lemma planned_repeat (interval : float) (k : nat) :
  forallb sleep_ok (repeat interval k) = true -> (0 < k)%nat ->
  sleep_error interval = None.
Proof.
  destruct k as [|k]; [lia|]. cbn [repeat forallb]. intros H _.
  apply andb_prop in H. apply sleep_ok_accepted, H.
Qed.

Lemma planned_delay (d inc : float) (m k : nat) :
  forallb sleep_ok (delays d inc m) = true -> (k < m)%nat ->
  sleep_error (nth_delay d inc k) = None.
Proof.
  intros H Hk. apply sleep_ok_accepted.
  rewrite List.forallb_forall in H. apply H.
  eapply List.nth_error_In. apply delays_nth. exact Hk.
Qed.

Lemma sustained_run net n interval ep s :
  forallb sleep_ok (repeat interval (Z.to_nat n - 1)) = true ->
  exists rs s',
    test_sustained_pattern net n interval ep s = (Ok rs, s') /\
    calls_done net ep s s' (Z.to_nat n) rs /\
    sleeps (trace s') = sleeps (trace s) ++ repeat interval (Z.to_nat n - 1) /\
    (1 <= n -> ends_with_get ep (trace s')).
Proof.
  intros Hok.
  set (N := Z.to_nat n) in *.
  set (P := fun (done : list Z) (acc : list RequestRecord) (st : State) =>
              let k := List.length done in
              calls_done net ep s st k acc /\
              sleeps (trace st) = sleeps (trace s) ++ repeat interval (Nat.min k (N - 1)) /\
              (k = N -> k <> 0%nat -> ends_with_get ep (trace st))).
  unfold test_sustained_pattern, bind at 1, print at 1, emit.
  match goal with
  | |- context [for_each _ ?b _ ?s1] =>
      destruct (for_each_inv b P (range n)) with (rest := range n) (done := @nil Z)
        (acc := @nil RequestRecord) (s := s1) as (rs & s' & Hrun & HP)
  end.
  - (* one iteration *)
    intros done x rest acc st Htot (Hc & Hs & _).
    destruct (range_split n done rest x Htot) as [-> Hlt]. fold N in Hlt.
    unfold bind at 1, print, emit.
    destruct (call_step net ep s _ _ _
                (calls_done_emit net ep s st _ acc
                   (EvPrint (MsgRequest (Z.of_nat (List.length done) + 1) n)) eq_refl Hc))
      as (r & s2 & Hmk & _ & Htr & Hc2).
    cbn [trace self] in Htr.
    unfold bind at 1. rewrite Hmk.
    unfold P. rewrite List.length_app. simpl List.length.
    replace (List.length done + 1)%nat with (S (List.length done)) by lia.
    destruct (Z.ltb_spec (Z.of_nat (List.length done)) (n - 1)) as [Hi|Hi].
    + assert (Hacc : sleep_error interval = None)
        by (apply (planned_repeat interval (N - 1) Hok); unfold N in *; lia).
      unfold bind at 1. rewrite (sleep_accepted interval s2 Hacc).
      eexists _, _. split; [reflexivity|]. cbn [trace self].
      split; [now apply calls_done_emit|]. split.
      * replace (Nat.min (S (List.length done)) (N - 1)) with (S (List.length done)) by lia.
        rewrite sleeps_app, Htr, !sleeps_app, Hs.
        replace (Nat.min (List.length done) (N - 1)) with (List.length done) by lia.
        cbn [sleeps]. now rewrite !List.app_nil_r, repeat_snoc, List.app_assoc.
      * intros Hk. exfalso. unfold N in *. lia.
    + eexists _, _. split; [reflexivity|].
      split; [assumption|]. split.
      * rewrite Htr, !sleeps_app, Hs. cbn [sleeps]. rewrite !List.app_nil_r.
        f_equal. f_equal. unfold N in *. lia.
      * intros _ _. rewrite Htr. now eexists _, _.
  - reflexivity.
  - unfold P. simpl. split; [apply calls_done_emit; [reflexivity|apply calls_done_refl]|].
    split.
    + rewrite sleeps_app. simpl. now rewrite !List.app_nil_r.
    + intros _ H. now elim H.
  - exists rs, s'. split; [exact Hrun|].
    destruct HP as (Hc & Hs & He). rewrite range_length in *. fold N in Hc, Hs, He.
    split; [exact Hc|split].
    + rewrite Hs. f_equal. f_equal. lia.
    + intros Hn. apply He; [reflexivity|]. unfold N. lia.
Qed.

Lemma burst_run net n ep s :
  exists rs s',
    test_burst_pattern net n ep s = (Ok rs, s') /\
    calls_done net ep s s' (Z.to_nat n) rs /\
    sleeps (trace s') = sleeps (trace s).
Proof.
  set (P := fun (done : list Z) (acc : list RequestRecord) (st : State) =>
              calls_done net ep s st (List.length done) acc /\
              sleeps (trace st) = sleeps (trace s)).
  unfold test_burst_pattern, bind at 1, print at 1, emit.
  match goal with
  | |- context [for_each _ ?b _ ?s1] =>
      destruct (for_each_inv b P (range n)) with (rest := range n) (done := @nil Z)
        (acc := @nil RequestRecord) (s := s1) as (rs & s' & Hrun & HP)
  end.
  - intros done x rest acc st Htot (Hc & Hs).
    unfold bind at 1, print, emit.
    destruct (call_step net ep s _ _ _
                (calls_done_emit net ep s st _ acc
                   (EvPrint (MsgRequest (x + 1) n)) eq_refl Hc))
      as (r & s2 & Hmk & _ & Htr & Hc2).
    cbn [trace self] in Htr.
    unfold bind at 1. rewrite Hmk.
    eexists _, _. split; [reflexivity|].
    unfold P. rewrite List.length_app. simpl List.length.
    replace (List.length done + 1)%nat with (S (List.length done)) by lia.
    split; [assumption|].
    rewrite Htr, !sleeps_app, Hs. cbn [sleeps]. now rewrite !List.app_nil_r.
  - reflexivity.
  - unfold P. cbn [trace self List.length]. split.
    + apply calls_done_emit; [reflexivity|apply calls_done_refl].
    + rewrite sleeps_app. cbn [sleeps]. now rewrite List.app_nil_r.
  - exists rs, s'. destruct HP as (Hc & Hs). rewrite range_length in Hc.
    split; [exact Hrun|]. split; assumption.
Qed.

Lemma delayed_run net n d inc ep s :
  forallb sleep_ok (delays d inc (Z.to_nat n - 1)) = true ->
  exists rs s',
    test_delayed_pattern net n d inc ep s = (Ok rs, s') /\
    calls_done net ep s s' (Z.to_nat n) rs /\
    sleeps (trace s') = sleeps (trace s) ++ delays d inc (Z.to_nat n - 1) /\
    (1 <= n -> ends_with_get ep (trace s')).
Proof.
  intros Hok.
  set (N := Z.to_nat n) in *.
  set (P := fun (done : list Z) (acc : list RequestRecord * float) (st : State) =>
              let k := List.length done in
              calls_done net ep s st k (fst acc) /\
              snd acc = nth_delay d inc (Nat.min k (N - 1)) /\
              sleeps (trace st) = sleeps (trace s) ++ delays d inc (Nat.min k (N - 1)) /\
              (k = N -> k <> 0%nat -> ends_with_get ep (trace st))).
  unfold test_delayed_pattern, bind at 1, print at 1, emit.
  unfold bind at 1.
  match goal with
  | |- context [for_each _ ?b ?a ?s1] =>
      destruct (for_each_inv b P (range n)) with (rest := range n) (done := @nil Z)
        (acc := a) (s := s1) as (acc & s' & Hrun & HP)
  end.
  - (* one iteration *)
    intros done x rest [res cur] st Htot (Hc & Hd & Hs & _).
    cbn [fst snd] in Hc, Hd.
    destruct (range_split n done rest x Htot) as [-> Hlt]. fold N in Hlt.
    unfold bind at 1, print, emit.
    destruct (call_step net ep s _ _ _
                (calls_done_emit net ep s st _ res
                   (EvPrint (MsgRequestDelay (Z.of_nat (List.length done) + 1) n cur))
                   eq_refl Hc))
      as (r & s2 & Hmk & _ & Htr & Hc2).
    cbn [trace self] in Htr.
    unfold bind at 1. rewrite Hmk.
    unfold P. rewrite List.length_app. simpl List.length.
    replace (List.length done + 1)%nat with (S (List.length done)) by lia.
    destruct (Z.ltb_spec (Z.of_nat (List.length done)) (n - 1)) as [Hi|Hi].
    + replace (Nat.min (S (List.length done)) (N - 1)) with (S (List.length done)) by lia.
      replace (Nat.min (List.length done) (N - 1)) with (List.length done) in Hd, Hs by lia.
      assert (Hacc : sleep_error cur = None)
        by (rewrite Hd; apply (planned_delay d inc (N - 1)); [exact Hok|unfold N in *; lia]).
      unfold bind at 1. rewrite (sleep_accepted cur s2 Hacc).
      eexists _, _. split; [reflexivity|]. cbn [trace self fst snd].
      split; [now apply calls_done_emit|]. split; [|split].
      * rewrite Hd. reflexivity.
      * rewrite sleeps_app, Htr, !sleeps_app, Hs. cbn [sleeps].
        now rewrite !List.app_nil_r, delays_snoc, List.app_assoc, Hd.
      * intros Hk. exfalso. unfold N in *. lia.
    + eexists _, _. split; [reflexivity|]. cbn [fst snd].
      replace (Nat.min (S (List.length done)) (N - 1)) with (Nat.min (List.length done) (N - 1))
        by (unfold N in *; lia).
      split; [assumption|]. split; [assumption|]. split.
      * rewrite Htr, !sleeps_app, Hs. cbn [sleeps]. now rewrite !List.app_nil_r.
      * intros _ _. rewrite Htr. now eexists _, _.
  - reflexivity.
  - unfold P. cbn [trace self List.length fst snd].
    split; [apply calls_done_emit; [reflexivity|apply calls_done_refl]|].
    split; [reflexivity|]. split.
    + rewrite sleeps_app. cbn [sleeps]. simpl. now rewrite !List.app_nil_r.
    + intros _ H. now elim H.
  - exists (fst acc), s'. rewrite Hrun. split; [reflexivity|].
    destruct HP as (Hc & _ & Hs & He). rewrite range_length in *. fold N in Hc, Hs, He.
    split; [exact Hc|split].
    + rewrite Hs. f_equal. f_equal. lia.
    + intros Hn. apply He; [reflexivity|]. unfold N. lia.
Qed.

(** ** The loops, whether or not a sleep raises *)

Lemma for_each_any {A T} (body : A -> T -> M T) (J : nat -> State -> Prop) :
  (forall j j' st, (j <= j')%nat -> J j st -> J j' st) ->
  (forall x acc st j, J j st -> J (S j) (snd (body x acc st))) ->
  forall l acc st j, J j st -> J (j + List.length l)%nat (snd (for_each l body acc st)).
Proof.
  intros Hmono Hstep l. induction l as [|x l IH]; intros acc st j HJ.
  - cbn. now rewrite Nat.add_0_r.
  - cbn [for_each List.length]. unfold bind.
    specialize (Hstep x acc st j HJ).
    destruct (body x acc st) as [[acc'|e] st']; cbn [snd] in *.
    + replace (j + S (List.length l))%nat with (S j + List.length l)%nat by lia.
      now apply IH.
    + apply (Hmono (S j)); [lia|assumption].
Qed.

Lemma pattern_inv_mono net ep s0 (j j' : nat) (st : State) :
  (j <= j')%nat -> pattern_inv net ep s0 j st -> pattern_inv net ep s0 j' st.
Proof.
  intros Hj (k & new & Hk & Hc & Hg). exists k, new. split; [lia|]. now split.
Qed.

Lemma pattern_inv_refl net ep s0 : pattern_inv net ep s0 0 s0.
Proof.
  exists 0%nat, []. split; [lia|]. split; [apply calls_done_refl|apply grows_refl].
Qed.

Lemma pattern_inv_emit net ep s0 (j : nat) (st : State) (e : Event) :
  is_get e = false ->
  pattern_event (base_url (self s0)) ep e ->
  pattern_inv net ep s0 j st ->
  pattern_inv net ep s0 j {| self := self st; trace := trace st ++ [e] |}.
Proof.
  intros He Hq (k & new & Hk & Hc & Hg). exists k, new.
  split; [exact Hk|]. split; [now apply calls_done_emit|].
  eapply grows_more; [exact Hg|reflexivity|reflexivity|].
  constructor; [exact Hq|constructor].
Qed.

Lemma pattern_inv_request net ep s0 (j : nat) (st : State) :
  pattern_inv net ep s0 j st ->
  exists r st',
    make_request net ep st = (Ok r, st') /\ pattern_inv net ep s0 (S j) st'.
Proof.
  intros (k & new & Hk & Hc & Hg).
  destruct (call_step net ep s0 st k new Hc) as (r & st' & Hmk & _ & Htr & Hc').
  exists r, st'. split; [exact Hmk|].
  exists (S k), (new ++ [r]). split; [lia|]. split; [exact Hc'|].
  unfold make_request in Hmk. injection Hmk as _ <-.
  grows_by Hg.
Qed.

(** The state after one iteration of a pattern: a line is printed, the
    request is made, and a sleep, if there is one, is slept or raises. *)
Lemma pattern_inv_iteration net ep s0 (j : nat) (st : State) (m : Msg)
    (pause : option float) {T} (k : RequestRecord -> M T) :
  pattern_inv net ep s0 j st ->
  (forall r st', snd (k r st') = st') ->
  let body :=
    (print m ;;;
     let! result := make_request net ep in
     match pause with Some d => sleep d | None => ret tt end ;;;
     k result)%py in
  pattern_inv net ep s0 (S j) (snd (body st)).
Proof.
  intros HJ Hk. cbv zeta. unfold bind at 1, print, emit.
  destruct (pattern_inv_request net ep s0 j _
              (pattern_inv_emit net ep s0 j st (EvPrint m) eq_refl I HJ))
    as (r & st' & Hmk & HJ').
  unfold bind at 1. rewrite Hmk. unfold bind.
  destruct pause as [d|].
  - unfold sleep. destruct (sleep_error d); cbn [lift ret emit snd].
    + exact HJ'.
    + rewrite Hk. now apply pattern_inv_emit.
  - cbn [ret]. rewrite Hk. exact HJ'.
Qed.

Lemma burst_any net n ep s :
  pattern_inv net ep s (Z.to_nat n) (snd (test_burst_pattern net n ep s)).
Proof.
  unfold test_burst_pattern, bind at 1, print at 1, emit.
  rewrite <- (range_length n).
  apply (for_each_any _ (pattern_inv net ep s)) with (j := 0%nat).
  - apply pattern_inv_mono.
  - intros x acc st j HJ.
    apply (pattern_inv_iteration net ep s j st _ None
             (fun result => ret (acc ++ [result])) HJ).
    reflexivity.
  - apply pattern_inv_emit; [reflexivity|exact I|apply pattern_inv_refl].
Qed.

Lemma sustained_any net n interval ep s :
  pattern_inv net ep s (Z.to_nat n) (snd (test_sustained_pattern net n interval ep s)).
Proof.
  unfold test_sustained_pattern, bind at 1, print at 1, emit.
  rewrite <- (range_length n).
  apply (for_each_any _ (pattern_inv net ep s)) with (j := 0%nat).
  - apply pattern_inv_mono.
  - intros x acc st j HJ.
    destruct (x <? n - 1).
    + apply (pattern_inv_iteration net ep s j st _ (Some interval)
               (fun result => ret (acc ++ [result])) HJ).
      reflexivity.
    + apply (pattern_inv_iteration net ep s j st _ None
               (fun result => ret (acc ++ [result])) HJ).
      reflexivity.
  - apply pattern_inv_emit; [reflexivity|exact I|apply pattern_inv_refl].
Qed.

Lemma delayed_any net n d inc ep s :
  pattern_inv net ep s (Z.to_nat n) (snd (test_delayed_pattern net n d inc ep s)).
Proof.
  unfold test_delayed_pattern, bind at 1, print at 1, emit.
  unfold bind at 1.
  match goal with
  | |- context [for_each ?l ?b ?a ?s1] =>
      assert (HJ : pattern_inv net ep s (Z.to_nat n) (snd (for_each l b a s1)))
  end.
  - rewrite <- (range_length n).
    apply (for_each_any _ (pattern_inv net ep s)) with (j := 0%nat).
    + apply pattern_inv_mono.
    + intros x [res cur] st j HJ.
      destruct (x <? n - 1).
      * apply (pattern_inv_iteration net ep s j st _ (Some cur)
                 (fun result => ret (res ++ [result], (cur + inc)%float)) HJ).
        reflexivity.
      * apply (pattern_inv_iteration net ep s j st _ None
                 (fun result => ret (res ++ [result], cur)) HJ).
        reflexivity.
    + apply pattern_inv_emit; [reflexivity|exact I|apply pattern_inv_refl].
  - match type of HJ with
    | context [for_each ?l ?b ?a ?s1] => destruct (for_each l b a s1) as [[acc|e] st]
    end; exact HJ.
Qed.

(** ** The result list *)

Lemma get_endpoints_app (a b : list Event) :
  get_endpoints (a ++ b) = get_endpoints a ++ get_endpoints b.
Proof.
  induction a as [|e a IH]; [reflexivity|].
  destruct e; cbn; now rewrite IH.
Qed.

Lemma get_endpoints_length (tr : list Event) :
  List.length (get_endpoints tr) = gets tr.
Proof.
  unfold gets. induction tr as [|e tr IH]; [reflexivity|].
  destruct e; cbn; now rewrite IH.
Qed.

Lemma pattern_events_endpoints (base ep : string) (added : list Event) :
  List.Forall (pattern_event base ep) added ->
  get_endpoints added = repeat ep (gets added).
Proof.
  unfold gets. induction 1 as [|e added He _ IH]; [reflexivity|].
  destruct e; cbn in *; try assumption.
  destruct He as [_ ->]. now rewrite IH.
Qed.

(** What a pattern has done to the result list, however it ended. *)
Lemma pattern_inv_log net ep s0 (j : nat) (st : State) :
  pattern_inv net ep s0 j st ->
  exists k,
    (k <= j)%nat /\
    results (self st)
    = results (self s0) ++ records_from net (gets (trace s0)) (repeat ep k) /\
    gets (trace st) = (gets (trace s0) + k)%nat /\
    get_endpoints (trace st) = get_endpoints (trace s0) ++ repeat ep k.
Proof.
  intros (k & new & Hk & (Hres & Hnew & Hg) & (_ & added & Htr & Hq)).
  exists k. split; [exact Hk|]. split; [now rewrite Hres, Hnew|]. split; [exact Hg|].
  rewrite Htr, get_endpoints_app, (pattern_events_endpoints _ _ _ Hq).
  rewrite Htr, gets_app in Hg. do 2 f_equal. lia.
Qed.

Lemma incl_repeat {A} (x : A) (k n : nat) : (k <= n)%nat -> incl (repeat x k) (repeat x n).
Proof.
  intros Hk y Hy. pose proof (List.repeat_spec _ _ _ Hy) as ->.
  destruct n as [|n]; [|now left].
  assert (k = 0%nat) by lia. subst k. destruct Hy.
Qed.

Lemma open_w_cases (path : string) (s : State) :
  open_w path s = (Ok tt, s) \/ exists e, open_w path s = (Raise e, s).
Proof. unfold open_w. destruct (open_error path) as [e|]; [right; now exists e|now left]. Qed.

(** Closes the goal that a state computed from [s] has the result list
    of [s] and a trace grown by events that are no GETs. *)
Ltac quiet_step :=
  cbn; split; [first [reflexivity|assumption]|];
  first [ now exists []; rewrite List.app_nil_r
        | eexists; split; [rewrite <- ?List.app_assoc; reflexivity|reflexivity] ].

(** An operation appends the records of the GETs it sends, in order.
    The GETs are calls that the operation asks for, and all of them
    when its sleeps are accepted. *)
Lemma run_op_log net to_numeric (o : Op) (s : State) :
  exists eps,
    results (self (run_op net to_numeric o s))
    = results (self s) ++ records_from net (gets (trace s)) eps /\
    gets (trace (run_op net to_numeric o s)) = (gets (trace s) + List.length eps)%nat /\
    get_endpoints (trace (run_op net to_numeric o s)) = get_endpoints (trace s) ++ eps /\
    incl eps (requested o) /\
    (valid_op o = true -> eps = requested o).
Proof.
  assert (Hquiet : forall s',
             (results (self s') = results (self s) /\
              exists added, trace s' = trace s ++ added /\ get_endpoints added = []) ->
             requested o = [] ->
             exists eps,
               results (self s') = results (self s) ++ records_from net (gets (trace s)) eps /\
               gets (trace s') = (gets (trace s) + List.length eps)%nat /\
               get_endpoints (trace s') = get_endpoints (trace s) ++ eps /\
               incl eps (requested o) /\
               (valid_op o = true -> eps = requested o)).
  { intros s' (Hres & added & Htr & Hadd) Hreq. exists []. rewrite Hreq.
    cbn [records_from List.length]. rewrite Hres, Htr, List.app_nil_r, Nat.add_0_r.
    rewrite get_endpoints_app, Hadd, List.app_nil_r.
    rewrite <- get_endpoints_length, get_endpoints_app, Hadd, List.app_nil_r.
    rewrite get_endpoints_length.
    repeat split; try reflexivity. apply List.incl_refl. }
  assert (Hloop : forall n ep st,
             pattern_inv net ep s (Z.to_nat n) st ->
             requested o = repeat ep (Z.to_nat n) ->
             (valid_op o = true ->
              results (self st)
              = results (self s) ++ records_from net (gets (trace s)) (repeat ep (Z.to_nat n))) ->
             exists eps,
               results (self st) = results (self s) ++ records_from net (gets (trace s)) eps /\
               gets (trace st) = (gets (trace s) + List.length eps)%nat /\
               get_endpoints (trace st) = get_endpoints (trace s) ++ eps /\
               incl eps (requested o) /\
               (valid_op o = true -> eps = requested o)).
  { intros n ep st HJ Hreq Hfull.
    destruct (pattern_inv_log net ep s _ st HJ) as (k & Hk & Hres & Hg & He).
    exists (repeat ep k). rewrite Hreq, List.repeat_length.
    split; [exact Hres|]. split; [exact Hg|]. split; [exact He|].
    split; [now apply incl_repeat|].
    intros Hv. specialize (Hfull Hv). rewrite Hres in Hfull.
    apply List.app_inv_head in Hfull.
    apply (f_equal (@List.length _)) in Hfull.
    rewrite !records_from_length, !List.repeat_length in Hfull. now rewrite Hfull. }
  destruct o as [ep|n ep|n i ep|n d inc ep|f| | |a]; cbn [run_op requested valid_op].
  - destruct (call_step net ep s s 0 [] (calls_done_refl net ep s))
      as (r & s' & Hmk & Hr & Htr & (Hres & _ & Hg)).
    rewrite Hmk. cbn [snd]. exists [ep]. cbn [records_from List.length].
    rewrite Hres, Hg, Hr, Htr, get_endpoints_app, Nat.add_0_r.
    repeat split; try reflexivity. apply List.incl_refl.
  - apply (Hloop n ep _ (burst_any net n ep s) eq_refl). intros _.
    destruct (burst_run net n ep s) as (rs & s' & Hrun & (Hres & Hn & _) & _).
    rewrite Hrun. cbn [snd]. now rewrite Hres, Hn.
  - apply (Hloop n ep _ (sustained_any net n i ep s) eq_refl). intros Hv.
    destruct (sustained_run net n i ep s Hv) as (rs & s' & Hrun & (Hres & Hn & _) & _).
    rewrite Hrun. cbn [snd]. now rewrite Hres, Hn.
  - apply (Hloop n ep _ (delayed_any net n d inc ep s) eq_refl). intros Hv.
    destruct (delayed_run net n d inc ep s Hv) as (rs & s' & Hrun & (Hres & Hn & _) & _).
    rewrite Hrun. cbn [snd]. now rewrite Hres, Hn.
  - apply Hquiet; [|reflexivity]. unfold save_results.
    destruct (results (self s)) eqn:Hr; [quiet_step|].
    unfold bind. destruct (open_w_cases f s) as [H|[e H]]; rewrite H; quiet_step.
  - apply Hquiet; [|reflexivity]. quiet_step.
  - apply Hquiet; [|reflexivity]. unfold create_visualizations.
    destruct (results (self s)) eqn:Hr; quiet_step.
  - apply Hquiet; [|reflexivity]. unfold generate_report, bind, lift.
    destruct (report_text a); quiet_step.
Qed.

Lemma exec_log net to_numeric (ops : list Op) (s : State) :
  exists eps,
    results (self (exec net to_numeric ops s))
    = results (self s) ++ records_from net (gets (trace s)) eps /\
    gets (trace (exec net to_numeric ops s)) = (gets (trace s) + List.length eps)%nat /\
    get_endpoints (trace (exec net to_numeric ops s)) = get_endpoints (trace s) ++ eps /\
    incl eps (flat_map requested ops) /\
    (forallb valid_op ops = true -> eps = flat_map requested ops).
Proof.
  revert s. induction ops as [|o ops IH]; intros s; cbn [exec fold_left flat_map forallb].
  - exists []. cbn [records_from List.length]. rewrite !List.app_nil_r, Nat.add_0_r.
    repeat split; try reflexivity. apply List.incl_refl.
  - destruct (run_op_log net to_numeric o s) as (eps1 & Hr & Hg & He & Hi & Hv).
    destruct (IH (run_op net to_numeric o s)) as (eps2 & Hr' & Hg' & He' & Hi' & Hv').
    unfold exec in Hr', Hg', He'. exists (eps1 ++ eps2).
    rewrite Hr', Hg', He', Hr, Hg, He.
    rewrite records_from_app, List.length_app, <- !List.app_assoc.
    split; [reflexivity|]. split; [lia|]. split; [reflexivity|]. split.
    + apply List.incl_app; [now apply List.incl_appl|now apply List.incl_appr].
    + intros H. apply andb_prop in H. destruct H as [H1 H2].
      now rewrite (Hv H1), (Hv' H2).
Qed.

(** C1. Every call of [make_request] returns normally, whatever the
    outcome of the GET, and appends the record it returns, once, to the
    end of the result list, sending one GET.  After any sequence of
    method calls the result list is the former list followed by the
    records of the executor calls made, one per GET sent and in the
    order of the GETs: earlier records are neither changed nor removed.
    A tester that starts with an empty list holds exactly [N] records
    after [N] executor calls, also for [N = 0].  The calls made are
    those that the operations ask for when every sleep that a pattern
    asks for is accepted; a pattern whose sleep raises stops after the
    calls made so far. *)
Theorem result_store_exact (net : nat -> Exchange) (to_numeric : string -> float) :
  (forall ep s,
      exists r s',
        make_request net ep s = (Ok r, s') /\
        r = build_record ep (net (gets (trace s))) /\
        results (self s') = results (self s) ++ [r] /\
        gets (trace s') = S (gets (trace s))) /\
  (forall ops s,
      let s' := exec net to_numeric ops s in
      exists eps,
        get_endpoints (trace s') = get_endpoints (trace s) ++ eps /\
        results (self s') = results (self s) ++ records_from net (gets (trace s)) eps /\
        List.length (results (self s'))
        = (List.length (results (self s)) + List.length eps)%nat /\
        gets (trace s') = (gets (trace s) + List.length eps)%nat /\
        (forallb valid_op ops = true -> eps = flat_map requested ops)) /\
  (forall ops t,
      let s' := exec net to_numeric ops {| self := set_results t []; trace := [] |} in
      results (self s') = records_from net 0 (get_endpoints (trace s')) /\
      List.length (results (self s')) = gets (trace s') /\
      (forallb valid_op ops = true ->
       results (self s') = records_from net 0 (flat_map requested ops) /\
       List.length (results (self s')) = List.length (flat_map requested ops))).
Proof.
  split; [|split].
  - intros ep s.
    destruct (call_step net ep s s 0 [] (calls_done_refl net ep s))
      as (r & s' & Hmk & Hr & Htr & (Hres & _ & Hg)).
    exists r, s'. rewrite Nat.add_0_r in Hr. repeat split; try assumption. lia.
  - intros ops s. cbv zeta.
    destruct (exec_log net to_numeric ops s) as (eps & Hr & Hg & He & _ & Hv).
    exists eps. split; [exact He|]. split; [exact Hr|].
    split; [|split; [exact Hg|exact Hv]].
    now rewrite Hr, List.length_app, records_from_length.
  - intros ops t. cbv zeta.
    destruct (exec_log net to_numeric ops {| self := set_results t []; trace := [] |})
      as (eps & Hr & Hg & He & _ & Hv).
    cbn in Hr, Hg, He. rewrite Hr, He, Hg.
    split; [reflexivity|]. split; [apply records_from_length|].
    intros Hvalid. rewrite (Hv Hvalid).
    split; [reflexivity|apply records_from_length].
Qed.

(** C1 on a run of one call, a burst of two, a sustained pattern of
    three and a delayed pattern of two: eight records for eight GETs. *)
Example result_store_sample :
  let s' := exec Sample.net Sample.to_numeric
              [OpRequest "/rate_limit"; OpBurst 2 default_endpoint;
               OpSustained 3 0.5 default_endpoint; OpDelayed 2 1 0.5 "/zen"]
              Sample.fresh in
  List.map endpoint (results (self s')) = get_endpoints (trace s') /\
  List.length (results (self s')) = 8%nat /\
  sleeps (trace s') = [0.5; 0.5; 1]%float.
Proof. vm_compute. repeat split; reflexivity. Qed.

(** ** The fields of one record *)

(** C2. In every record that [make_request] produces, [success] is true
    exactly when [status_code] is 200, and a record with [success] true
    has no [error] text. *)
Theorem success_iff_status_200 (net : nat -> Exchange) (ep : string) (s : State) :
  match make_request net ep s with
  | (Ok r, _) =>
      (success r = true <-> status_code r = 200) /\
      (success r = true -> error r = None)
  | (Raise _, _) => False
  end.
Proof.
  unfold make_request, build_record.
  destruct (ex_outcome (net (gets (trace s)))) as [response|str_e]; cbn.
  - split.
    + apply Z.eqb_eq.
    + intros ->. reflexivity.
  - split; [split; discriminate|discriminate].
Qed.

(** C3. When the response, if one arrives, carries a
    three-digit status, the record of a call has [status_code] 0 exactly
    when the GET raised.  In that case [success] is false, the three
    rate-limit fields hold the sentinel, and [error] holds the text of
    the exception: it is always present, and it is empty when that text
    is empty. *)
Theorem status_zero_iff_raised (net : nat -> Exchange) (ep : string) (s : State) :
  well_formed (ex_outcome (net (gets (trace s)))) ->
  match make_request net ep s with
  | (Ok r, _) =>
      (status_code r = 0 <-> exists e, ex_outcome (net (gets (trace s))) = Failed e) /\
      (forall e, ex_outcome (net (gets (trace s))) = Failed e ->
                 error r = Some e /\ success r = false /\
                 rate_limit_remaining r = NA /\ rate_limit_limit r = NA /\
                 rate_limit_reset r = NA)
  | (Raise _, _) => False
  end.
Proof.
  unfold make_request, build_record, well_formed, http_status.
  destruct (ex_outcome (net (gets (trace s)))) as [response|str_e]; cbn; intros Hwf.
  - split.
    + split; [lia|]. intros [e He]. discriminate.
    + intros e He. discriminate.
  - split.
    + split; [eauto|reflexivity].
    + intros e He. injection He as ->. now repeat split.
Qed.

(** C3 on a run whose first GET raises. *)
Lemma status_zero_iff_raised_witness :
  well_formed (ex_outcome (Sample.net_down 0)) /\
  match make_request Sample.net_down default_endpoint Sample.fresh with
  | (Ok r, _) =>
      (status_code r = 0 <-> exists e, ex_outcome (Sample.net_down 0) = Failed e) /\
      (forall e, ex_outcome (Sample.net_down 0) = Failed e ->
                 error r = Some e /\ success r = false /\
                 rate_limit_remaining r = NA /\ rate_limit_limit r = NA /\
                 rate_limit_reset r = NA)
  | (Raise _, _) => False
  end.
Proof.
  split.
  - exact I.
  - exact (status_zero_iff_raised Sample.net_down default_endpoint Sample.fresh I).
Defined.

(** C3: the error text can be empty.  A GET that raises an exception
    whose text is empty gives a record with [status_code] 0 whose
    [error] is the empty string. *)
Lemma raised_with_empty_text :
  match make_request Sample.net_down default_endpoint Sample.fresh with
  | (Ok r, _) => status_code r = 0 /\ error r = Some EmptyString
  | (Raise _, _) => False
  end.
Proof. cbn. split; reflexivity. Qed.

(** What [build_record] stores in the rate-limit fields. *)
Lemma build_record_headers (ep : string) (ex : Exchange) :
  match ex_outcome ex with
  | Answered response =>
      let r := build_record ep ex in
      let hs := resp_headers response in
      rate_limit_remaining r = default NA (hs !! "x-ratelimit-remaining"%string) /\
      rate_limit_limit r = default NA (hs !! "x-ratelimit-limit"%string) /\
      rate_limit_reset r = default NA (hs !! "x-ratelimit-reset"%string) /\
      (rate_limit_remaining r = NA ->
       hs !! "x-ratelimit-remaining"%string = None \/
       hs !! "x-ratelimit-remaining"%string = Some NA) /\
      (rate_limit_limit r = NA ->
       hs !! "x-ratelimit-limit"%string = None \/
       hs !! "x-ratelimit-limit"%string = Some NA) /\
      (rate_limit_reset r = NA ->
       hs !! "x-ratelimit-reset"%string = None \/
       hs !! "x-ratelimit-reset"%string = Some NA) /\
      (forall v before after,
          hs !! "x-ratelimit-remaining"%string = Some v -> v <> NA ->
          List.In r (rate_limit_data (before ++ r :: after)))
  | Failed _ =>
      let r := build_record ep ex in
      rate_limit_remaining r = NA /\ rate_limit_limit r = NA /\ rate_limit_reset r = NA
  end.
Proof.
  unfold build_record.
  destruct (ex_outcome ex) as [response|str_e]; cbv zeta;
    cbn [rate_limit_remaining rate_limit_limit rate_limit_reset]; [|now repeat split].
  unfold headers_get.
  change (lower "X-RateLimit-Remaining") with "x-ratelimit-remaining"%string.
  change (lower "X-RateLimit-Limit") with "x-ratelimit-limit"%string.
  change (lower "X-RateLimit-Reset") with "x-ratelimit-reset"%string.
  split; [reflexivity|]. split; [reflexivity|]. split; [reflexivity|].
  split; [|split; [|split]].
  1-3: match goal with
       | |- default _ ?o = _ -> _ => destruct o as [v|]; cbn; intros H; [right; now rewrite H|now left]
       end.
  intros v before after Hv Hne.
  unfold rate_limit_data. apply List.filter_In. split.
  - apply List.in_or_app. right. now left.
  - cbn [rate_limit_remaining]. rewrite Hv. cbn.
    destruct (String.eqb_spec v NA); [contradiction|reflexivity].
Qed.

(** C10. For a response of any status, 200 or not, the three
    rate-limit fields of the record that [make_request] returns are the
    values of the three headers, unchanged, and the sentinel where a
    header is missing.  A field holds the sentinel only if its header is
    missing or the header's own value is the text N/A.  After a GET that
    raised, the three fields hold the sentinel.  A record made from a
    response whose X-RateLimit-Remaining header is present and is not
    the text N/A belongs to the analyzer's rate-limit subset, whatever
    the status. *)
Theorem rate_limit_headers_verbatim (net : nat -> Exchange) (ep : string) (s : State) :
  match make_request net ep s with
  | (Ok r, _) =>
      match ex_outcome (net (gets (trace s))) with
      | Answered response =>
          let hs := resp_headers response in
          rate_limit_remaining r = default NA (hs !! "x-ratelimit-remaining"%string) /\
          rate_limit_limit r = default NA (hs !! "x-ratelimit-limit"%string) /\
          rate_limit_reset r = default NA (hs !! "x-ratelimit-reset"%string) /\
          (rate_limit_remaining r = NA ->
           hs !! "x-ratelimit-remaining"%string = None \/
           hs !! "x-ratelimit-remaining"%string = Some NA) /\
          (rate_limit_limit r = NA ->
           hs !! "x-ratelimit-limit"%string = None \/
           hs !! "x-ratelimit-limit"%string = Some NA) /\
          (rate_limit_reset r = NA ->
           hs !! "x-ratelimit-reset"%string = None \/
           hs !! "x-ratelimit-reset"%string = Some NA) /\
          (forall v before after,
              hs !! "x-ratelimit-remaining"%string = Some v -> v <> NA ->
              List.In r (rate_limit_data (before ++ r :: after)))
      | Failed _ =>
          rate_limit_remaining r = NA /\ rate_limit_limit r = NA /\
          rate_limit_reset r = NA
      end
  | (Raise _, _) => False
  end.
Proof.
  unfold make_request.
  exact (build_record_headers ep (net (gets (trace s)))).
Qed.

(** C10: a header that is present can still leave the sentinel in the
    field.  The response carries X-RateLimit-Remaining with the value
    N/A; the record's field is the sentinel and the record is not in the
    analyzer's rate-limit subset. *)
Lemma header_reading_na :
  match make_request Sample.net_literal_na default_endpoint Sample.fresh with
  | (Ok r, _) =>
      match ex_outcome (Sample.net_literal_na 0) with
      | Answered response =>
          resp_headers response !! "x-ratelimit-remaining"%string = Some NA /\
          rate_limit_remaining r = NA /\
          rate_limit_data [r] = []
      | Failed _ => False
      end
  | (Raise _, _) => False
  end.
Proof. cbn. repeat split; vm_compute; reflexivity. Qed.

(** ** The analyzer *)

Lemma filter_success_len (b : bool) (rs : list RequestRecord) :
  len (List.filter (fun r => Bool.eqb (success r) b) rs) = count_success b rs.
Proof.
  unfold len, count_success. f_equal.
  induction rs as [|r rs IH]; [reflexivity|].
  cbn [List.filter List.map count_occ].
  destruct (bool_dec (success r) b) as [->|Hne].
  - rewrite Bool.eqb_reflx. cbn [List.length]. now rewrite IH.
  - destruct (Bool.eqb (success r) b) eqn:He; [|exact IH].
    apply Bool.eqb_prop in He. contradiction.
Qed.

Lemma len_map {A B} (f : A -> B) (l : list A) : len (List.map f l) = len l.
Proof. unfold len. now rewrite List.length_map. Qed.

Lemma basic_statistics_lookup (rs : list RequestRecord) :
  let a := basic_statistics rs in
  let times := List.map response_time_ms rs in
  a !! "total_requests"%string = Some (PInt (len rs)) /\
  a !! "successful_requests"%string = Some (PInt (count_success true rs)) /\
  a !! "failed_requests"%string = Some (PInt (count_success false rs)) /\
  a !! "success_rate"%string
  = Some (PFloat (success_rate_of (count_success true rs) (len rs))) /\
  a !! "avg_response_time_ms"%string = Some (PFloat (series_mean times)) /\
  a !! "min_response_time_ms"%string = Some (PFloat (series_min times)) /\
  a !! "max_response_time_ms"%string = Some (PFloat (series_max times)) /\
  a !! "std_response_time_ms"%string = Some (PFloat (series_std times)) /\
  a !! "status_code_counts"%string
  = Some (PCounts (value_counts (List.map status_code rs))) /\
  a !! "final_rate_limit_remaining"%string = None /\
  a !! "rate_limit_usage"%string = None.
Proof.
  cbv zeta. unfold basic_statistics, success_rate_of, int_truediv.
  rewrite !filter_success_len.
  repeat split; lookup_literal.
Qed.

Lemma numeric_limit_spec (text : string) :
  numeric_limit text = true ->
  exists n, py_int text = Some n /\ to_float n = Ok (float_of_Z n).
Proof.
  unfold numeric_limit, to_float. destruct (py_int text) as [n|]; [|discriminate].
  intros H. apply andb_prop in H. destruct H as [Hlo Hhi].
  apply Z.leb_le in Hlo. apply Z.ltb_lt in Hhi.
  exists n. split; [reflexivity|].
  assert (Hb : 2 ^ 63 < float_overflow) by (vm_compute; reflexivity).
  assert (H63 : 2 ^ 63 = 9223372036854775808) by reflexivity.
  rewrite H63 in *.
  destruct (Z.ltb_spec (Z.abs n) float_overflow) as [_|Hge]; [reflexivity|lia].
Qed.

(** The ways [analyze] ends on a non-empty list. *)
Lemma analyze_cases to_numeric (r0 : RequestRecord) (rs0 : list RequestRecord) :
  let rs := r0 :: rs0 in
  match rate_limit_data rs with
  | [] => analyze to_numeric rs = Ok (basic_statistics rs)
  | first :: rest =>
      match py_int (rate_limit_limit first) with
      | None => analyze to_numeric rs = Raise (InvalidLiteral (rate_limit_limit first))
      | Some limit =>
          match to_float limit with
          | Raise e => analyze to_numeric rs = Raise e
          | Ok divisor =>
              let final := to_numeric (rate_limit_remaining (List.last rest first)) in
              analyze to_numeric rs
              = Ok (<["rate_limit_usage"%string :=
                        PFloat (100 - final / divisor * 100)%float]>
                    (<["final_rate_limit_remaining"%string := PFloat final]>
                       (basic_statistics rs)))
          end
      end
  end.
Proof.
  cbv zeta. unfold analyze.
  destruct (rate_limit_data (r0 :: rs0)) as [|first rest]; [reflexivity|].
  destruct (py_int (rate_limit_limit first)) as [limit|]; [|reflexivity].
  destruct (to_float limit); reflexivity.
Qed.

(** Whenever [analyze] returns on a non-empty list, the nine basic
    entries are those of the dictionary literal. *)
Lemma analyze_keeps_basic to_numeric (r0 : RequestRecord) (rs0 : list RequestRecord)
    (a : gmap string pyval) (k : string) :
  analyze to_numeric (r0 :: rs0) = Ok a ->
  k <> "rate_limit_usage"%string -> k <> "final_rate_limit_remaining"%string ->
  a !! k = basic_statistics (r0 :: rs0) !! k.
Proof.
  intros Ha Hk1 Hk2. pose proof (analyze_cases to_numeric r0 rs0) as Hc. cbv zeta in Hc.
  destruct (rate_limit_data (r0 :: rs0)) as [|first rest].
  - rewrite Hc in Ha. now injection Ha as <-.
  - destruct (py_int (rate_limit_limit first)) as [limit|]; [|rewrite Hc in Ha; discriminate].
    destruct (to_float limit); rewrite Hc in Ha; [|discriminate].
    injection Ha as <-. now rewrite !lookup_insert_ne by congruence.
Qed.

(** [analyze] returns when the first record with rate-limit data, if
    there is one, carries the text of a machine integer. *)
Lemma analyze_returns to_numeric (rs : list RequestRecord) :
  (forall first rest,
      rate_limit_data rs = first :: rest -> numeric_limit (rate_limit_limit first) = true) ->
  exists a, analyze to_numeric rs = Ok a.
Proof.
  intros Hnum. destruct rs as [|r0 rs0]; [now exists ∅|].
  pose proof (analyze_cases to_numeric r0 rs0) as Hc. cbv zeta in Hc.
  destruct (rate_limit_data (r0 :: rs0)) as [|first rest]; [eauto|].
  destruct (numeric_limit_spec _ (Hnum first rest eq_refl)) as (n & Hn & Hf).
  rewrite Hn, Hf in Hc. eauto.
Qed.

(** ** Sums as NumPy computes them *)

Lemma fold_add_sum (a l : list float) (s : float) :
  float_sum_of l s -> float_sum_of (l ++ a) (fold_left PrimFloat.add a s).
Proof.
  revert l s. induction a as [|x a IH]; intros l s Hs.
  - now rewrite List.app_nil_r.
  - cbn [fold_left].
    replace (l ++ x :: a) with ((l ++ [x]) ++ a) by now rewrite <- List.app_assoc.
    apply IH. apply sum_add; [exact Hs|apply sum_one].
Qed.

Lemma sum_short_spec (a : list float) : float_sum_of a (sum_short a).
Proof. exact (fold_add_sum a [] neg_zero sum_none). Qed.

(** One block: every running sum takes one more entry. *)
Lemma add_block_spec (parts : list (list float)) (r : list float) :
  List.Forall2 float_sum_of parts r ->
  forall blk, List.length blk = List.length r ->
    exists parts',
      List.Forall2 float_sum_of parts' (zip_with PrimFloat.add r blk) /\
      concat parts' ≡ₚ concat parts ++ blk.
Proof.
  induction 1 as [|p x parts r Hp _ IH]; intros [|y blk] Hlen; try discriminate.
  - exists []. split; [constructor|reflexivity].
  - injection Hlen as Hlen. destruct (IH blk Hlen) as (parts' & Hall & Hperm).
    exists ((p ++ [y]) :: parts'). split.
    + cbn [zip_with]. constructor; [|exact Hall].
      apply sum_add; [exact Hp|apply sum_one].
    + cbn [concat]. rewrite Hperm, <- !List.app_assoc.
      apply Permutation_app_head. cbn [app]. apply Permutation_middle.
Qed.

Lemma zip_with_add_length (r blk : list float) :
  List.length blk = List.length r ->
  List.length (zip_with PrimFloat.add r blk) = List.length r.
Proof.
  revert blk. induction r as [|x r IH]; intros [|y blk] H; try discriminate; [reflexivity|].
  cbn. f_equal. apply IH. now injection H.
Qed.

Lemma add_blocks_spec (blocks : nat) :
  forall (r a : list float) (parts : list (list float)),
    List.Forall2 float_sum_of parts r ->
    List.length r = 8%nat ->
    (8 * blocks <= List.length a)%nat ->
    exists parts',
      List.Forall2 float_sum_of parts' (fst (add_blocks blocks r a)) /\
      List.length (fst (add_blocks blocks r a)) = 8%nat /\
      concat parts' ++ snd (add_blocks blocks r a) ≡ₚ concat parts ++ a.
Proof.
  induction blocks as [|b IH]; intros r a parts Hall Hr Ha.
  - exists parts. cbn. now repeat split.
  - cbn [add_blocks].
    assert (Hblk : List.length (firstn 8 a) = List.length r)
      by (rewrite List.length_firstn; lia).
    destruct (add_block_spec parts r Hall (firstn 8 a) Hblk) as (parts1 & Hall1 & Hperm1).
    destruct (IH (zip_with PrimFloat.add r (firstn 8 a)) (skipn 8 a) parts1 Hall1)
      as (parts' & Hall' & Hlen' & Hperm').
    + now rewrite zip_with_add_length.
    + rewrite List.length_skipn. lia.
    + exists parts'. split; [exact Hall'|]. split; [exact Hlen'|].
      rewrite Hperm', Hperm1, <- List.app_assoc.
      now rewrite (List.firstn_skipn 8 a).
Qed.

Lemma tree8_spec (parts : list (list float)) (r : list float) :
  List.Forall2 float_sum_of parts r ->
  List.length r = 8%nat ->
  float_sum_of (concat parts) (tree8 r).
Proof.
  intros Hall Hr.
  destruct r as [|r0 [|r1 [|r2 [|r3 [|r4 [|r5 [|r6 [|r7 [|r8 r]]]]]]]]]; try discriminate.
  repeat match goal with
         | H : List.Forall2 _ _ (_ :: _) |- _ => inversion H; subst; clear H
         | H : List.Forall2 _ _ [] |- _ => inversion H; subst; clear H
         end.
  cbn [concat tree8]. rewrite List.app_nil_r.
  match goal with
  | |- float_sum_of (?p0 ++ ?p1 ++ ?p2 ++ ?p3 ++ ?p4 ++ ?p5 ++ ?p6 ++ ?p7) _ =>
      replace (p0 ++ p1 ++ p2 ++ p3 ++ p4 ++ p5 ++ p6 ++ p7)
        with (((p0 ++ p1) ++ (p2 ++ p3)) ++ ((p4 ++ p5) ++ (p6 ++ p7)))
        by (rewrite <- !List.app_assoc; reflexivity)
  end.
  repeat apply sum_add; assumption.
Qed.

Lemma singletons_sum (l : list float) :
  List.Forall2 float_sum_of (List.map (fun x => [x]) l) l /\
  concat (List.map (fun x => [x]) l) = l.
Proof.
  induction l as [|x l [IH1 IH2]]; [split; [constructor|reflexivity]|].
  cbn [List.map concat]. split; [constructor; [apply sum_one|exact IH1]|].
  cbn [app]. now rewrite IH2.
Qed.

Lemma sum_unrolled_spec (a : list float) :
  (8 <= List.length a)%nat -> float_sum_of a (sum_unrolled a).
Proof.
  intros Hn. unfold sum_unrolled.
  destruct (singletons_sum (firstn 8 a)) as [Hall Hcat].
  destruct (add_blocks_spec (List.length a / 8 - 1) (firstn 8 a) (skipn 8 a) _ Hall)
    as (parts' & Hall' & Hlen' & Hperm').
  - rewrite List.length_firstn. lia.
  - rewrite List.length_skipn.
    pose proof (Nat.Div0.mul_div_le (List.length a) 8). lia.
  - destruct (add_blocks (List.length a / 8 - 1) (firstn 8 a) (skipn 8 a)) as [r rest].
    cbn [fst snd] in *.
    apply (sum_perm (concat parts' ++ rest)).
    + now rewrite Hperm', Hcat, (List.firstn_skipn 8 a).
    + apply fold_add_sum. now apply tree8_spec.
Qed.

Lemma pairwise_sum_spec (depth : nat) :
  forall a : list float, float_sum_of a (pairwise_sum depth a).
Proof.
  induction depth as [|depth IH]; intros a; cbn [pairwise_sum];
    destruct (Nat.ltb_spec (List.length a) 8) as [Hlt|Hge];
    try apply sum_short_spec;
    destruct (Nat.leb_spec (List.length a) 128) as [Hle|Hgt];
    try (now apply sum_unrolled_spec).
  set (n2 := (List.length a / 2 - (List.length a / 2) mod 8)%nat).
  rewrite <- (List.firstn_skipn n2 a) at 1.
  apply sum_add; apply IH.
Qed.

(** The depth given by [np_sum] is enough: with any greater depth the
    sum is the same, so the cuts never stop for lack of depth. *)
Lemma pairwise_sum_depth (d : nat) :
  forall (a : list float) (d' : nat),
    (List.length a <= d)%nat -> (d <= d')%nat ->
    pairwise_sum d' a = pairwise_sum d a.
Proof.
  induction d as [|d IH]; intros a d' Ha Hd.
  - destruct a as [|x a]; [|cbn in Ha; lia]. destruct d'; reflexivity.
  - destruct d' as [|d']; [lia|]. cbn [pairwise_sum].
    destruct (List.length a <? 8)%nat; [reflexivity|].
    destruct (Nat.leb_spec (List.length a) 128) as [Hle|Hgt]; [reflexivity|].
    pose proof (Nat.div_mod_eq (List.length a) 2) as Hdiv.
    pose proof (Nat.mod_upper_bound (List.length a) 2) as Hm2.
    pose proof (Nat.mod_upper_bound (List.length a / 2) 8) as Hm8.
    rewrite !(IH _ d'); try lia; [reflexivity| |].
    + rewrite List.length_skipn. lia.
    + rewrite List.length_firstn. lia.
Qed.

(** The sum that NumPy returns for a non-empty column is a sum of its
    entries, each taken once, in some order and grouping. *)
Lemma np_sum_spec (a : list float) : a <> [] -> float_sum_of a (np_sum a).
Proof.
  destruct a as [|x a]; [intros H; now elim H|]. intros _.
  apply pairwise_sum_spec.
Qed.

(** Eight and ten entries 0.1 (the float [0x1.999999999999ap-4]): the
    eight running sums give 0.8 and 1.0, where adding from left to
    right gives 0.7999999999999999 and 0.9999999999999999. *)
Example np_sum_of_tenths :
  np_sum (repeat Sample.tenth 8) = 0x1.999999999999ap-1%float /\
  series_mean (repeat Sample.tenth 8) = Sample.tenth /\
  np_sum (repeat Sample.tenth 10) = 1%float /\
  fold_left PrimFloat.add (repeat Sample.tenth 8) 0%float = 0x1.9999999999999p-1%float /\
  fold_left PrimFloat.add (repeat Sample.tenth 10) 0%float = 0x1.fffffffffffffp-1%float.
Proof. vm_compute. repeat split; reflexivity. Qed.

(** A NaN latency is skipped by the four reductions. *)
Example reductions_skip_nan :
  series_mean [100; nan; 110]%float = 105%float /\
  series_min [nan; 110; 100]%float = 100%float /\
  series_max [100; nan; 110]%float = 110%float /\
  series_std [100; nan; 110]%float = 0x1.c48c6001f0acp+2%float /\
  series_mean [nan]%float = nan.
Proof. vm_compute. repeat split; reflexivity. Qed.

(** ** Columns without NaN *)

Lemma fillna_id (v : float) (l : list float) :
  List.Forall (fun x => is_nan x = false) l -> fillna v l = l.
Proof.
  unfold fillna. induction 1 as [|x l Hx _ IH]; [reflexivity|].
  cbn [List.map]. now rewrite Hx, IH.
Qed.

Lemma count_all (l : list float) :
  List.Forall (fun x => is_nan x = false) l -> count l = len l.
Proof.
  unfold count, len. induction 1 as [|x l Hx _ IH]; [reflexivity|].
  cbn [List.filter]. rewrite Hx. cbn [negb List.length]. lia.
Qed.

Lemma sq_devs_all (avg : float) (l : list float) :
  List.Forall (fun x => is_nan x = false) l ->
  sq_devs avg l = List.map (fun x => ((avg - x) * (avg - x))%float) l.
Proof.
  unfold sq_devs. induction 1 as [|x l Hx _ IH]; [reflexivity|].
  cbn [List.map]. now rewrite Hx, IH.
Qed.

(** ** Order on floats: the reported minimum and maximum *)

Lemma SFltb_irrefl (a : spec_float) : SFltb a a = false.
Proof.
  unfold SFltb, SFcompare.
  destruct a as [[|]|[|]| |[|] m e]; try reflexivity;
    rewrite Z.compare_refl;
    change (Pos.compare_cont Eq m m) with (Pos.compare m m);
    now rewrite Pos.compare_refl.
Qed.

Lemma SFltb_trans (a b c : spec_float) :
  SFltb a b = true -> SFltb b c = true -> SFltb a c = true.
Proof.
  unfold SFltb, SFcompare.
  destruct a as [[|]|[|]| |[|] ma ea], b as [[|]|[|]| |[|] mb eb],
           c as [[|]|[|]| |[|] mc ec];
    try reflexivity; try discriminate;
    change (Pos.compare_cont Eq) with Pos.compare;
    destruct (Z.compare_spec ea eb), (Z.compare_spec eb ec), (Z.compare_spec ea ec);
    try reflexivity; try discriminate; try lia; subst;
    destruct (Pos.compare_spec ma mb), (Pos.compare_spec mb mc), (Pos.compare_spec ma mc);
    cbn; try reflexivity; try discriminate; try lia.
Qed.

Lemma ltb_irrefl (x : float) : (x <? x)%float = false.
Proof. rewrite ltb_spec. apply SFltb_irrefl. Qed.

Lemma ltb_trans (x y z : float) :
  (x <? y)%float = true -> (y <? z)%float = true -> (x <? z)%float = true.
Proof. rewrite !ltb_spec. apply SFltb_trans. Qed.

Lemma fold_fmin_spec (l : list float) (m : float) (seen : list float) :
  List.In m seen ->
  (forall y, List.In y seen -> (y <? m)%float = false) ->
  List.In (fold_left fmin l m) (seen ++ l) /\
  (forall y, List.In y (seen ++ l) -> (y <? fold_left fmin l m)%float = false).
Proof.
  revert m seen. induction l as [|x l IH]; intros m seen Hin Hlow.
  - rewrite List.app_nil_r. now split.
  - cbn [fold_left].
    replace (seen ++ x :: l) with ((seen ++ [x]) ++ l) by now rewrite <- List.app_assoc.
    apply IH; unfold fmin.
    + destruct (x <? m)%float; apply List.in_or_app; [right; now left|now left].
    + intros y Hy. apply List.in_app_or in Hy.
      destruct (x <? m)%float eqn:Hxm.
      * destruct Hy as [Hy|[<-|[]]]; [|apply ltb_irrefl].
        destruct (y <? x)%float eqn:Hyx; [|reflexivity].
        rewrite <- (Hlow y Hy). symmetry. now apply ltb_trans with x.
      * destruct Hy as [Hy|[<-|[]]]; [now apply Hlow|assumption].
Qed.

Lemma fold_fmax_spec (l : list float) (m : float) (seen : list float) :
  List.In m seen ->
  (forall y, List.In y seen -> (m <? y)%float = false) ->
  List.In (fold_left fmax l m) (seen ++ l) /\
  (forall y, List.In y (seen ++ l) -> (fold_left fmax l m <? y)%float = false).
Proof.
  revert m seen. induction l as [|x l IH]; intros m seen Hin Hup.
  - rewrite List.app_nil_r. now split.
  - cbn [fold_left].
    replace (seen ++ x :: l) with ((seen ++ [x]) ++ l) by now rewrite <- List.app_assoc.
    apply IH; unfold fmax.
    + destruct (m <? x)%float; apply List.in_or_app; [right; now left|now left].
    + intros y Hy. apply List.in_app_or in Hy.
      destruct (m <? x)%float eqn:Hmx.
      * destruct Hy as [Hy|[<-|[]]]; [|apply ltb_irrefl].
        destruct (x <? y)%float eqn:Hxy; [|reflexivity].
        rewrite <- (Hup y Hy). symmetry. now apply ltb_trans with x.
      * destruct Hy as [Hy|[<-|[]]]; [now apply Hup|assumption].
Qed.

Lemma len_positive {A} (x : A) (l : list A) : (len (x :: l) <=? 0) = false.
Proof. unfold len. cbn [List.length]. apply Z.leb_gt. lia. Qed.

Lemma series_min_spec (x : float) (l : list float) :
  List.Forall (fun y => is_nan y = false) (x :: l) ->
  List.In (series_min (x :: l)) (x :: l) /\
  (forall y, List.In y (x :: l) -> (y <? series_min (x :: l))%float = false).
Proof.
  intros Hnan. unfold series_min.
  rewrite (count_all _ Hnan), (fillna_id _ _ Hnan), len_positive.
  apply (fold_fmin_spec l x [x]); [now left|].
  intros y [<-|[]]. apply ltb_irrefl.
Qed.

Lemma series_max_spec (x : float) (l : list float) :
  List.Forall (fun y => is_nan y = false) (x :: l) ->
  List.In (series_max (x :: l)) (x :: l) /\
  (forall y, List.In y (x :: l) -> (series_max (x :: l) <? y)%float = false).
Proof.
  intros Hnan. unfold series_max.
  rewrite (count_all _ Hnan), (fillna_id _ _ Hnan), len_positive.
  apply (fold_fmax_spec l x [x]); [now left|].
  intros y [<-|[]]. apply ltb_irrefl.
Qed.

(** The mean and the variance of a column without NaN. *)
Lemma series_mean_spec (x : float) (l : list float) :
  List.Forall (fun y => is_nan y = false) (x :: l) ->
  series_mean (x :: l) = (np_sum (x :: l) / float_of_Z (len (x :: l)))%float.
Proof.
  intros Hnan. unfold series_mean.
  now rewrite (count_all _ Hnan), (fillna_id _ _ Hnan), len_positive.
Qed.

Lemma series_var_spec (ddof : Z) (x : float) (l : list float) :
  List.Forall (fun y => is_nan y = false) (x :: l) ->
  series_var ddof (x :: l)
  = if len (x :: l) <=? ddof then nan
    else (np_sum (List.map (fun y => ((series_mean (x :: l) - y)
                                      * (series_mean (x :: l) - y))%float) (x :: l))
          / float_of_Z (len (x :: l) - ddof))%float.
Proof.
  intros Hnan. unfold series_var.
  rewrite (series_mean_spec x l Hnan), (count_all _ Hnan), (fillna_id _ _ Hnan).
  now rewrite (sq_devs_all _ _ Hnan).
Qed.

(** ** The summary *)

(** C4. For five records with status codes 200, 200, 200, 200, 403, in
    this order, latencies 100, 110, 90, 105, 120 ms and [success] set on
    the first four, whose first record with rate-limit data, if there is
    one, carries the text of a 64-bit integer as its limit,
    [analyze_results] returns a summary with [total_requests = 5],
    [successful_requests = 4], [failed_requests = 1],
    [success_rate = 80.0], [avg_response_time_ms = 105.0] and
    [status_code_counts = {200: 4, 403: 1}]. *)
Theorem analyze_five_records (to_numeric : string -> float) (rs : list RequestRecord) :
  List.map status_code rs = [200; 200; 200; 200; 403] ->
  List.map response_time_ms rs = [100; 110; 90; 105; 120]%float ->
  List.map success rs = [true; true; true; true; false] ->
  (forall first rest,
      rate_limit_data rs = first :: rest ->
      numeric_limit (rate_limit_limit first) = true) ->
  exists a,
    analyze to_numeric rs = Ok a /\
    a !! "total_requests"%string = Some (PInt 5) /\
    a !! "successful_requests"%string = Some (PInt 4) /\
    a !! "failed_requests"%string = Some (PInt 1) /\
    a !! "success_rate"%string = Some (PFloat 80) /\
    a !! "avg_response_time_ms"%string = Some (PFloat 105) /\
    a !! "status_code_counts"%string = Some (PCounts {[ 200 := 4; 403 := 1 ]}).
Proof.
  intros Hst Hms Hsu Hrl.
  destruct (analyze_returns to_numeric rs Hrl) as [a Ha].
  destruct rs as [|r0 rs0]; [discriminate|].
  exists a. split; [exact Ha|].
  rewrite !(analyze_keeps_basic to_numeric r0 rs0 a _ Ha) by discriminate.
  destruct (basic_statistics_lookup (r0 :: rs0))
    as (Ht & Hs & Hf & Hr & Havg & _ & _ & _ & Hcnt & _).
  rewrite Ht, Hs, Hf, Hr, Havg, Hcnt.
  unfold count_success. rewrite <- (len_map status_code (r0 :: rs0)), Hst, Hms, Hsu.
  repeat split; vm_compute; reflexivity.
Qed.

(** C4 on five records without rate-limit data. *)
Lemma analyze_five_records_witness :
  exists a,
    analyze Sample.to_numeric Sample.five = Ok a /\
    a !! "total_requests"%string = Some (PInt 5) /\
    a !! "successful_requests"%string = Some (PInt 4) /\
    a !! "failed_requests"%string = Some (PInt 1) /\
    a !! "success_rate"%string = Some (PFloat 80) /\
    a !! "avg_response_time_ms"%string = Some (PFloat 105) /\
    a !! "status_code_counts"%string = Some (PCounts {[ 200 := 4; 403 := 1 ]}).
Proof.
  apply (analyze_five_records Sample.to_numeric Sample.five);
    try reflexivity.
  intros first rest H. discriminate H.
Defined.

(** C5. On the empty list [analyze_results] returns the empty
    dictionary.  On a non-empty list whose latencies are numbers and
    whose first record with rate-limit data, if there is one, carries
    the text of a 64-bit integer as its limit, it returns a summary in
    which [success_rate] is the number of successful records over the
    number of records, times 100.  The statistics are taken over the
    latencies of all records, failed ones included: the mean is a float
    sum of the latencies divided by their number; the minimum and the
    maximum are latencies of the list, no latency is below the minimum
    and none is above the maximum; and [std_response_time_ms] is the
    sample standard deviation: the square root of a float sum of the
    squared deviations from the mean divided by [n - 1], which is NaN
    for a single record. *)
Theorem analyzer_statistics (to_numeric : string -> float) :
  analyze to_numeric [] = Ok ∅ /\
  forall (r0 : RequestRecord) (rs0 : list RequestRecord),
    let rs := r0 :: rs0 in
    let times := List.map response_time_ms rs in
    (forall first rest,
        rate_limit_data rs = first :: rest ->
        numeric_limit (rate_limit_limit first) = true) ->
    List.Forall (fun x => is_nan x = false) times ->
    exists a avg lo hi std,
      analyze to_numeric rs = Ok a /\
      a !! "success_rate"%string
      = Some (PFloat (success_rate_of (count_success true rs) (len rs))) /\
      a !! "avg_response_time_ms"%string = Some (PFloat avg) /\
      (exists total,
          float_sum_of times total /\ avg = (total / float_of_Z (len rs))%float) /\
      a !! "min_response_time_ms"%string = Some (PFloat lo) /\
      a !! "max_response_time_ms"%string = Some (PFloat hi) /\
      List.In lo times /\
      List.In hi times /\
      (forall x, List.In x times ->
                 (x <? lo)%float = false /\ (hi <? x)%float = false) /\
      a !! "std_response_time_ms"%string = Some (PFloat std) /\
      if len rs <=? 1 then std = nan
      else exists q,
          float_sum_of (List.map (fun x => ((avg - x) * (avg - x))%float) times) q /\
          std = PrimFloat.sqrt (q / float_of_Z (len rs - 1)).
Proof.
  split; [reflexivity|].
  intros r0 rs0. cbv zeta. intros Hnum Hnan.
  destruct (analyze_returns to_numeric (r0 :: rs0) Hnum) as [a Ha].
  destruct (basic_statistics_lookup (r0 :: rs0))
    as (_ & _ & _ & Hr & Havg & Hmin & Hmax & Hstd & _).
  cbv zeta in Hr, Havg, Hmin, Hmax, Hstd.
  rewrite <- (analyze_keeps_basic to_numeric r0 rs0 a _ Ha) in Hr by discriminate.
  rewrite <- (analyze_keeps_basic to_numeric r0 rs0 a _ Ha) in Havg by discriminate.
  rewrite <- (analyze_keeps_basic to_numeric r0 rs0 a _ Ha) in Hmin by discriminate.
  rewrite <- (analyze_keeps_basic to_numeric r0 rs0 a _ Ha) in Hmax by discriminate.
  rewrite <- (analyze_keeps_basic to_numeric r0 rs0 a _ Ha) in Hstd by discriminate.
  cbn [List.map] in *.
  set (x0 := response_time_ms r0) in *.
  set (l := List.map response_time_ms rs0) in *.
  assert (Hlen : len (x0 :: l) = len (r0 :: rs0))
    by (unfold len, l; cbn [List.length]; now rewrite List.length_map).
  destruct (series_min_spec x0 l Hnan) as [Hmi Hml].
  destruct (series_max_spec x0 l Hnan) as [Hma Hmu].
  exists a, (series_mean (x0 :: l)), (series_min (x0 :: l)), (series_max (x0 :: l)),
    (series_std (x0 :: l)).
  split; [exact Ha|]. split; [exact Hr|]. split; [exact Havg|]. split.
  { exists (np_sum (x0 :: l)). split; [apply np_sum_spec; discriminate|].
    now rewrite (series_mean_spec x0 l Hnan), Hlen. }
  split; [exact Hmin|]. split; [exact Hmax|].
  split; [exact Hmi|]. split; [exact Hma|]. split.
  { intros x Hx. split; [now apply Hml|now apply Hmu]. }
  split; [exact Hstd|].
  unfold series_std. rewrite (series_var_spec 1 x0 l Hnan), Hlen.
  destruct (len (r0 :: rs0) <=? 1); [reflexivity|].
  eexists. split; [|reflexivity].
  apply np_sum_spec. discriminate.
Qed.

(** C5 on the five sample records: the success rate is 80.0, and the
    mean is a float sum of the five latencies divided by 5. *)
Lemma analyzer_statistics_witness :
  exists a avg,
    analyze Sample.to_numeric Sample.five = Ok a /\
    a !! "success_rate"%string = Some (PFloat 80) /\
    a !! "avg_response_time_ms"%string = Some (PFloat avg) /\
    exists total,
      float_sum_of [100; 110; 90; 105; 120]%float total /\ avg = (total / 5)%float.
Proof.
  destruct (analyzer_statistics Sample.to_numeric) as [_ Hall].
  destruct (Hall (Sample.record 200 100)
              [Sample.record 200 110; Sample.record 200 90; Sample.record 200 105;
               Sample.record 403 120])
    as (a & avg & lo & hi & std & Ha & Hrate & Havg & Hsum & _).
  - intros first rest H. discriminate H.
  - repeat constructor.
  - exists a, avg. split; [exact Ha|]. split; [exact Hrate|]. split; [exact Havg|].
    exact Hsum.
Defined.

(** C5: the standard deviation reported is not the population one.  For
    two records with latencies 100 and 110 ms the summary holds
    7.0710678118654755 (the float [0x1.c48c6001f0acp+2]), the sample
    standard deviation, while the population standard deviation of the
    two latencies is 5. *)
Lemma std_is_sample_std :
  match analyze Sample.to_numeric [Sample.record 200 100; Sample.record 200 110] with
  | Ok a =>
      a !! "std_response_time_ms"%string = Some (PFloat 0x1.c48c6001f0acp+2) /\
      population_std [100; 110]%float = 5%float
  | Raise _ => False
  end.
Proof. vm_compute. split; reflexivity. Qed.

(** ** Rate-limit usage *)

Lemma rate_limit_data_In (rs : list RequestRecord) (r : RequestRecord) :
  List.In r (rate_limit_data rs) <-> List.In r rs /\ rate_limit_remaining r <> NA.
Proof.
  unfold rate_limit_data. rewrite List.filter_In.
  destruct (String.eqb_spec (rate_limit_remaining r) NA) as [He|Hne]; cbn.
  - split; [intros [_ H]; discriminate|intros [_ H]; contradiction].
  - tauto.
Qed.

Lemma rate_limit_data_app (a b : list RequestRecord) :
  rate_limit_data (a ++ b) = rate_limit_data a ++ rate_limit_data b.
Proof. apply List.filter_app. Qed.

Lemma rate_limit_data_nil (rs : list RequestRecord) :
  rate_limit_data rs = [] <-> (forall r, List.In r rs -> rate_limit_remaining r = NA).
Proof.
  split.
  - intros Hnil r Hin.
    destruct (String.eqb_spec (rate_limit_remaining r) NA) as [He|Hne]; [assumption|].
    assert (Hsel : List.In r (rate_limit_data rs)) by now apply rate_limit_data_In.
    rewrite Hnil in Hsel. destruct Hsel.
  - intros Hall. destruct (rate_limit_data rs) as [|r sel] eqn:Hsel; [reflexivity|].
    assert (Hin : List.In r (rate_limit_data rs)) by (rewrite Hsel; now left).
    apply rate_limit_data_In in Hin. destruct Hin as [Hin Hne].
    now elim Hne; apply Hall.
Qed.

(** The rate-limit entries of the summary, when the limit of the first
    record with rate-limit data is a number that has a float: the
    remaining quota is that of the last such record, the usage divides
    it by the limit of the first such record, and both entries are
    missing when no record has rate-limit data. *)
Lemma rate_limit_summary to_numeric (rs : list RequestRecord) :
  match rate_limit_data rs with
  | [] =>
      exists a, analyze to_numeric rs = Ok a /\
                a !! "final_rate_limit_remaining"%string = None /\
                a !! "rate_limit_usage"%string = None
  | first :: rest =>
      forall limit, py_int (rate_limit_limit first) = Some limit ->
        to_float limit = Ok (float_of_Z limit) ->
        let final := to_numeric (rate_limit_remaining (List.last rest first)) in
        exists a, analyze to_numeric rs = Ok a /\
                  a !! "final_rate_limit_remaining"%string = Some (PFloat final) /\
                  a !! "rate_limit_usage"%string
                  = Some (PFloat (100 - final / float_of_Z limit * 100)%float)
  end.
Proof.
  destruct rs as [|r0 rs0].
  - cbn. exists ∅. now repeat split.
  - pose proof (analyze_cases to_numeric r0 rs0) as Hc. cbv zeta in Hc.
    destruct (rate_limit_data (r0 :: rs0)) as [|first rest].
    + eexists. split; [exact Hc|].
      destruct (basic_statistics_lookup (r0 :: rs0)) as (_&_&_&_&_&_&_&_&_& Hf & Hu).
      now split.
    + intros limit Hl Hf. cbv zeta. rewrite Hl, Hf in Hc. cbv zeta in Hc.
      eexists. split; [exact Hc|]. split; lookup_literal.
Qed.

(** C6, at an input the code can receive: the first response carries
    X-RateLimit-Remaining but no X-RateLimit-Limit, the second carries
    both.  The two records hold remaining quotas 4999 and 4998 and
    limits N/A and 5000, and [analyze_results] raises the error of
    [int('N/A')] instead of returning a summary. *)
Theorem usage_raises_without_limit :
  List.map rate_limit_remaining
    (results (self (exec Sample.net_no_limit Sample.to_numeric
                      [OpRequest default_endpoint; OpRequest default_endpoint]
                      Sample.fresh)))
  = ["4999"; "4998"]%string /\
  List.map rate_limit_limit
    (results (self (exec Sample.net_no_limit Sample.to_numeric
                      [OpRequest default_endpoint; OpRequest default_endpoint]
                      Sample.fresh)))
  = ["N/A"; "5000"]%string /\
  analyze Sample.to_numeric
    (results (self (exec Sample.net_no_limit Sample.to_numeric
                      [OpRequest default_endpoint; OpRequest default_endpoint]
                      Sample.fresh)))
  = Raise (InvalidLiteral "N/A").
Proof. repeat split; vm_compute; reflexivity. Qed.

(** How [analyze] ends when some record has rate-limit data. *)
Lemma analyze_decided to_numeric (rs : list RequestRecord) (first : RequestRecord)
    (rest : list RequestRecord) :
  rate_limit_data rs = first :: rest ->
  match py_int (rate_limit_limit first) with
  | None => analyze to_numeric rs = Raise (InvalidLiteral (rate_limit_limit first))
  | Some limit =>
      if Z.abs limit <? float_overflow
      then is_ok (analyze to_numeric rs) = true
      else analyze to_numeric rs = Raise OverflowError
  end.
Proof.
  intros Hsel. destruct rs as [|r0 rs0]; [discriminate|].
  pose proof (analyze_cases to_numeric r0 rs0) as Hc. cbv zeta in Hc.
  rewrite Hsel in Hc.
  destruct (py_int (rate_limit_limit first)) as [limit|]; [|exact Hc].
  unfold to_float in Hc. destruct (Z.abs limit <? float_overflow); now rewrite Hc.
Qed.

(** C9. [analyze_results] selects the records whose
    [rate_limit_remaining] is not the sentinel and converts the
    [rate_limit_limit] of the first of them with [int()].  If every
    record with a remaining quota carries the text of a 64-bit integer
    as its limit, the call returns a summary.  When some record is
    selected, the call raises the error of [int()] if [int()] refuses
    the limit of the first selected record, returns if that limit is
    the text of a 64-bit integer, and raises [OverflowError] if it
    denotes an integer too large for a float.  A record made from a
    response that carries X-RateLimit-Remaining but no
    X-RateLimit-Limit, with no rate-limit data before it, makes the
    call raise the error of [int('N/A')]. *)
Theorem usage_needs_numeric_limit (to_numeric : string -> float) :
  (forall rs,
      (forall r, List.In r rs -> rate_limit_remaining r <> NA ->
                 numeric_limit (rate_limit_limit r) = true) ->
      is_ok (analyze to_numeric rs) = true) /\
  (forall rs first rest,
      rate_limit_data rs = first :: rest ->
      match py_int (rate_limit_limit first) with
      | None => analyze to_numeric rs = Raise (InvalidLiteral (rate_limit_limit first))
      | Some limit =>
          (numeric_limit (rate_limit_limit first) = true ->
           is_ok (analyze to_numeric rs) = true) /\
          (float_overflow <= Z.abs limit ->
           analyze to_numeric rs = Raise OverflowError)
      end) /\
  (forall ep ex response v before after,
      ex_outcome ex = Answered response ->
      resp_headers response !! "x-ratelimit-remaining"%string = Some v ->
      v <> NA ->
      resp_headers response !! "x-ratelimit-limit"%string = None ->
      rate_limit_data before = [] ->
      analyze to_numeric (before ++ build_record ep ex :: after)
      = Raise (InvalidLiteral NA)).
Proof.
  split; [|split].
  - intros rs Hnum.
    destruct (analyze_returns to_numeric rs) as [a Ha]; [|now rewrite Ha].
    intros first rest Hsel.
    assert (Hin : List.In first (rate_limit_data rs)) by (rewrite Hsel; now left).
    apply rate_limit_data_In in Hin. destruct Hin as [Hin Hne].
    exact (Hnum first Hin Hne).
  - intros rs first rest Hsel.
    pose proof (analyze_decided to_numeric rs first rest Hsel) as Hd.
    destruct (py_int (rate_limit_limit first)) as [limit|] eqn:Hl; [|exact Hd].
    split.
    + intros Hnum. destruct (numeric_limit_spec _ Hnum) as (n & Hn & Hf).
      assert (n = limit) by congruence. subst n.
      unfold to_float in Hf.
      destruct (Z.abs limit <? float_overflow); [exact Hd|discriminate].
    + intros Hbig.
      destruct (Z.ltb_spec (Z.abs limit) float_overflow) as [Hlt|_]; [lia|exact Hd].
  - intros ep ex response v before after Hex Hv Hne Hl Hbefore.
    set (r := build_record ep ex).
    assert (Hrem : rate_limit_remaining r = v).
    { unfold r, build_record. rewrite Hex. cbn [rate_limit_remaining].
      unfold headers_get.
      change (lower "X-RateLimit-Remaining") with "x-ratelimit-remaining"%string.
      now rewrite Hv. }
    assert (Hlim : rate_limit_limit r = NA).
    { unfold r, build_record. rewrite Hex. cbn [rate_limit_limit].
      unfold headers_get.
      change (lower "X-RateLimit-Limit") with "x-ratelimit-limit"%string.
      now rewrite Hl. }
    assert (Hsel : rate_limit_data (before ++ r :: after) = r :: rate_limit_data after).
    { rewrite rate_limit_data_app, Hbefore. cbn [app].
      unfold rate_limit_data at 1. cbn [List.filter]. rewrite Hrem.
      destruct (String.eqb_spec v NA); [contradiction|reflexivity]. }
    pose proof (analyze_decided to_numeric _ _ _ Hsel) as Hd.
    rewrite Hlim in Hd. exact Hd.
Qed.

(** C9 on a response with both headers, on one without the limit, and
    on one whose limit has 310 digits. *)
Lemma usage_needs_numeric_limit_witness :
  is_ok (analyze Sample.to_numeric [build_record default_endpoint Sample.usual]) = true /\
  analyze Sample.to_numeric [build_record default_endpoint Sample.no_limit]
  = Raise (InvalidLiteral NA) /\
  analyze Sample.to_numeric [Demo.huge] = Raise OverflowError.
Proof.
  destruct (usage_needs_numeric_limit Sample.to_numeric) as (Hok & Hfirst & Hraise).
  split; [|split].
  - apply Hok. intros r [<-|[]] _. vm_compute. reflexivity.
  - eapply (Hraise default_endpoint Sample.no_limit _ "4999"%string [] []).
    + reflexivity.
    + vm_compute. reflexivity.
    + discriminate.
    + vm_compute. reflexivity.
    + reflexivity.
  - assert (Hsel : rate_limit_data [Demo.huge] = Demo.huge :: [])
      by (vm_compute; reflexivity).
    assert (Hl : py_int (rate_limit_limit Demo.huge) = Some (10 ^ 309))
      by (vm_compute; reflexivity).
    pose proof (Hfirst [Demo.huge] Demo.huge [] Hsel) as Hd.
    rewrite Hl in Hd. apply Hd. vm_compute. discriminate.
Defined.

(** C9: the claim's condition is neither enough nor needed.  A limit
    of 310 digits is a number for [int()], and the call raises
    [OverflowError] when it divides by it.  A response without
    X-RateLimit-Limit that comes after a response with both headers
    leaves a record with a remaining quota and no limit, and the call
    returns a summary all the same. *)
Lemma usage_failure_not_as_claimed :
  py_int (rate_limit_limit Demo.huge) = Some (10 ^ 309) /\
  analyze Sample.to_numeric [Demo.huge] = Raise OverflowError /\
  List.map rate_limit_remaining
    [build_record default_endpoint Sample.usual;
     build_record default_endpoint Sample.no_limit]
  = ["4998"; "4999"]%string /\
  List.map rate_limit_limit
    [build_record default_endpoint Sample.usual;
     build_record default_endpoint Sample.no_limit]
  = ["5000"; "N/A"]%string /\
  is_ok (analyze Sample.to_numeric
           [build_record default_endpoint Sample.usual;
            build_record default_endpoint Sample.no_limit]) = true.
Proof. repeat split; vm_compute; reflexivity. Qed.

(** ** The timing patterns *)




(** ** The credential *)

(** C8. When neither the token argument nor the GITHUB_TOKEN variable
    holds a non-empty token, the construction of the tester raises
    [ValueError] with its diagnostic; it has no effect on the outside
    world.  With the variable unset or empty, [main] prints its two
    diagnostic lines, sends no GET, and returns, so that the script ends
    with exit status 0. *)
Theorem missing_credential (net : nat -> Exchange) (to_numeric : string -> float)
    (tok : option string) (base : string) (environ : gmap string string) :
  truthy tok = false ->
  truthy (getenv environ "GITHUB_TOKEN") = false ->
  init tok base environ = Raise (ValueError token_required) /\
  main net to_numeric environ
  = (Ok tt,
     [EvPrint (MsgText "Error: GITHUB_TOKEN environment variable is not set.");
      EvPrint (MsgText "Please set it with: export GITHUB_TOKEN=your_token_here")]) /\
  gets (snd (main net to_numeric environ)) = 0%nat /\
  script net to_numeric environ
  = (0,
     [EvPrint (MsgText "Error: GITHUB_TOKEN environment variable is not set.");
      EvPrint (MsgText "Please set it with: export GITHUB_TOKEN=your_token_here")]).
Proof.
  intros Htok Henv.
  assert (Hmain : main net to_numeric environ
                  = (Ok tt,
                     [EvPrint (MsgText "Error: GITHUB_TOKEN environment variable is not set.");
                      EvPrint (MsgText "Please set it with: export GITHUB_TOKEN=your_token_here")])).
  { unfold main. now rewrite Henv. }
  split; [|split; [exact Hmain|split]].
  - unfold init, or_else. rewrite Htok.
    destruct (getenv environ "GITHUB_TOKEN") as [[|c t]|]; [reflexivity|discriminate|reflexivity].
  - now rewrite Hmain.
  - unfold script. now rewrite Hmain.
Qed.

(** C8 with no token argument and an empty environment. *)
Lemma missing_credential_witness :
  truthy None = false /\
  truthy (getenv ∅ "GITHUB_TOKEN") = false /\
  init None default_base_url ∅ = Raise (ValueError token_required) /\
  gets (snd (main Sample.net Sample.to_numeric ∅)) = 0%nat.
Proof.
  assert (H1 : truthy None = false) by reflexivity.
  assert (H2 : truthy (getenv ∅ "GITHUB_TOKEN") = false) by reflexivity.
  destruct (missing_credential Sample.net Sample.to_numeric None default_base_url ∅ H1 H2)
    as (Hinit & _ & Hgets & _).
  repeat split; assumption.
Defined.

(** C8: with GITHUB_TOKEN unset the script sends no GET and ends with
    exit status 0, not with a non-zero status. *)
Lemma exit_status_zero_without_token :
  fst (script Sample.net Sample.to_numeric ∅) = 0 /\
  gets (snd (script Sample.net Sample.to_numeric ∅)) = 0%nat.
Proof. split; reflexivity. Qed.

(** ** Checks on sample data *)

Example py_int_accepts :
  List.map py_int ["5000"; " 5000 "; "5_000"; "+5"; "-5"; "0010"]%string
  = [Some 5000; Some 5000; Some 5000; Some 5; Some (-5); Some 10].
Proof. vm_compute. reflexivity. Qed.

Example py_int_refuses :
  List.map py_int ["N/A"; ""; "5000.0"; "_5"; "5_"; "5__0"; "- 5"; "5 5"]%string
  = [None; None; None; None; None; None; None; None].
Proof. vm_compute. reflexivity. Qed.

(** A whole run of the script with a token: 10 + 20 + 15 GETs, 19 + 14
    sleeps, three files, exit status 0. *)
Example script_with_token :
  let run := script Sample.net Sample.to_numeric {[ "GITHUB_TOKEN"%string := "t0ken"%string ]} in
  fst run = 0 /\
  gets (snd run) = 45%nat /\
  List.length (sleeps (snd run)) = 33%nat /\
  List.filter (fun e => match e with EvWrite _ => true | _ => false end) (snd run)
  = [EvWrite "github_api_test_results.csv";
     EvWrite "api_test_visualization.png";
     EvWrite "api_test_report.txt"].
Proof. vm_compute. repeat split; reflexivity. Qed.

(** The usage of a run that left 4999 of 5000 calls. *)
Example usage_of_sample_run :
  match analyze Sample.to_numeric
          [build_record default_endpoint Sample.usual;
           build_record default_endpoint (Sample.net 0)] with
  | Ok a =>
      a !! "final_rate_limit_remaining"%string = Some (PFloat 4999) /\
      a !! "rate_limit_usage"%string = Some (PFloat (100 - 4999 / 5000 * 100)%float)
  | Raise _ => False
  end.
Proof. vm_compute. split; reflexivity. Qed.


(** * Further properties of the code *)

(** ** Patterns without sleeps and without requests *)

(** X1. The burst pattern with count [n] makes [max n 0] executor
    calls and never sleeps; the list it returns is the list of records it
    appended to the result list, the records of the next GETs in order. *)
Theorem burst_pattern_calls (net : nat -> Exchange) (n : Z) (ep : string) (s : State) :
  exists rs s',
    test_burst_pattern net n ep s = (Ok rs, s') /\
    List.length rs = Z.to_nat n /\
    rs = records_from net (gets (trace s)) (repeat ep (Z.to_nat n)) /\
    results (self s') = results (self s) ++ rs /\
    gets (trace s') = (gets (trace s) + Z.to_nat n)%nat /\
    sleeps (trace s') = sleeps (trace s).
Proof.
  destruct (burst_run net n ep s) as (rs & s' & Hrun & (Hres & Hrs & Hg) & Hsl).
  exists rs, s'. repeat split; try assumption.
  now rewrite Hrs, records_from_length, List.repeat_length.
Qed.

Lemma range_nonpositive (n : Z) : n <= 0 -> range n = [].
Proof. intros Hn. unfold range. now replace (Z.to_nat n) with 0%nat by lia. Qed.

(** X2. With a count of zero or below, each of the three patterns
    prints its first line and returns the empty list: no GET, no sleep,
    and the tester is left as it was. *)
Theorem patterns_with_no_requests (net : nat -> Exchange) (n : Z)
    (interval d inc : float) (ep : string) (s : State) :
  n <= 0 ->
  test_burst_pattern net n ep s
  = (Ok [], {| self := self s; trace := trace s ++ [EvPrint (MsgBurstStart n)] |}) /\
  test_sustained_pattern net n interval ep s
  = (Ok [], {| self := self s;
               trace := trace s ++ [EvPrint (MsgSustainedStart n interval)] |}) /\
  test_delayed_pattern net n d inc ep s
  = (Ok [], {| self := self s; trace := trace s ++ [EvPrint (MsgDelayedStart n)] |}).
Proof.
  intros Hn.
  unfold test_burst_pattern, test_sustained_pattern, test_delayed_pattern.
  rewrite (range_nonpositive n Hn). repeat split.
Qed.

(** X2 for the counts 0 and -3. *)
Lemma patterns_with_no_requests_witness :
  0 <= 0 /\
  test_burst_pattern Sample.net 0 default_endpoint Sample.fresh
  = (Ok [], {| self := Sample.tester; trace := [EvPrint (MsgBurstStart 0)] |}) /\
  gets (trace (snd (test_delayed_pattern Sample.net (-3) 1 0.5 default_endpoint Sample.fresh)))
  = 0%nat.
Proof.
  assert (H0 : 0 <= 0) by lia.
  assert (H3 : -3 <= 0) by lia.
  destruct (patterns_with_no_requests Sample.net 0 0.5 1 0.5 default_endpoint Sample.fresh H0)
    as (Hb & _ & _).
  destruct (patterns_with_no_requests Sample.net (-3) 0.5 1 0.5 default_endpoint Sample.fresh H3)
    as (_ & _ & Hd).
  split; [exact H0|]. split; [exact Hb|]. rewrite Hd. reflexivity.
Defined.

(** ** The error text and the token *)

Lemma substring_length (n : nat) (s : string) :
  String.length (substring 0 n s) = Nat.min n (String.length s).
Proof.
  revert n. induction s as [|c s IH]; intros [|n]; cbn; try reflexivity.
  now rewrite IH.
Qed.

Lemma substring_prefix (n : nat) (s : string) : String.prefix (substring 0 n s) s = true.
Proof.
  revert n. induction s as [|c s IH]; intros [|n]; cbn; try reflexivity.
  destruct (ascii_dec c c) as [_|Hne]; [apply IH|now elim Hne].
Qed.

(** X3. The record of a response with status 200 has no error text.
    For any other status the error text is the body cut after 200
    characters: a prefix of the body whose length is the smaller of 200
    and the length of the body.  After a GET that raised, the error text
    is the text of the exception, whatever its length. *)
Theorem error_text_is_truncated_body (net : nat -> Exchange) (ep : string) (s : State) :
  match make_request net ep s with
  | (Ok r, _) =>
      match ex_outcome (net (gets (trace s))) with
      | Answered response =>
          if resp_status response =? 200
          then error r = None
          else exists t,
              error r = Some t /\
              String.length t = Nat.min 200 (String.length (resp_text response)) /\
              String.prefix t (resp_text response) = true
      | Failed str_e => error r = Some str_e
      end
  | (Raise _, _) => False
  end.
Proof.
  unfold make_request, build_record.
  destruct (ex_outcome (net (gets (trace s)))) as [response|str_e]; cbn [error]; [|reflexivity].
  destruct (resp_status response =? 200); cbn [negb]; [reflexivity|].
  eexists. split; [reflexivity|]. unfold slice_to.
  split; [apply substring_length|apply substring_prefix].
Qed.

(** X4. The construction of a tester takes the token argument when
    it is a non-empty string, whatever the environment holds, and the
    GITHUB_TOKEN variable otherwise; it fails exactly when neither is a
    non-empty string.  The tester it returns has a non-empty token, the
    base URL given, an empty result list, and the three session headers
    with the token in Authorization. *)
Theorem init_token_choice (tok : option string) (base : string)
    (environ : gmap string string) :
  match init tok base environ with
  | Ok t =>
      Some (token t) = (if truthy tok then tok else getenv environ "GITHUB_TOKEN") /\
      truthy (Some (token t)) = true /\
      base_url t = base /\
      results t = [] /\
      session_headers t
      = [("Authorization", "token " ++ token t);
         ("Accept", "application/vnd.github.v3+json");
         ("User-Agent", "GitHub-API-Tester/1.0")]%string
  | Raise e =>
      e = ValueError token_required /\
      truthy tok = false /\
      truthy (getenv environ "GITHUB_TOKEN") = false
  end.
Proof.
  unfold init, or_else.
  destruct (truthy tok) eqn:Htok.
  - destruct tok as [[|c t]|]; try discriminate. cbn. now repeat split.
  - destruct (getenv environ "GITHUB_TOKEN") as [[|c t]|]; cbn; now repeat split.
Qed.

(** ** Counts in the summary *)

Lemma count_success_split (rs : list RequestRecord) :
  count_success true rs + count_success false rs = len rs.
Proof.
  unfold count_success, len.
  induction rs as [|r rs IH]; [reflexivity|].
  cbn [List.map count_occ List.length].
  destruct (success r); cbn; lia.
Qed.

(** X5. In every summary of a non-empty list, [total_requests] is the
    number of records and is at least 1, and [successful_requests] and
    [failed_requests] are non-negative and add up to it. *)
Theorem summary_counts_add_up (to_numeric : string -> float) (r0 : RequestRecord)
    (rs0 : list RequestRecord) (a : gmap string pyval) :
  analyze to_numeric (r0 :: rs0) = Ok a ->
  exists total ok failed,
    a !! "total_requests"%string = Some (PInt total) /\
    a !! "successful_requests"%string = Some (PInt ok) /\
    a !! "failed_requests"%string = Some (PInt failed) /\
    total = len (r0 :: rs0) /\ 1 <= total /\
    0 <= ok /\ 0 <= failed /\ ok + failed = total.
Proof.
  intros Ha.
  exists (len (r0 :: rs0)), (count_success true (r0 :: rs0)), (count_success false (r0 :: rs0)).
  rewrite !(analyze_keeps_basic to_numeric r0 rs0 a _ Ha) by discriminate.
  destruct (basic_statistics_lookup (r0 :: rs0)) as (Ht & Hs & Hf & _).
  repeat split; try assumption.
  - unfold len. cbn [List.length]. lia.
  - unfold count_success. lia.
  - unfold count_success. lia.
  - apply count_success_split.
Qed.

(** X5 on the five sample records: 4 + 1 = 5. *)
Lemma summary_counts_add_up_witness :
  exists a,
    analyze Sample.to_numeric Sample.five = Ok a /\
    exists total ok failed,
      a !! "total_requests"%string = Some (PInt total) /\
      a !! "successful_requests"%string = Some (PInt ok) /\
      a !! "failed_requests"%string = Some (PInt failed) /\
      total = len Sample.five /\ 1 <= total /\
      0 <= ok /\ 0 <= failed /\ ok + failed = total.
Proof.
  assert (Ha : analyze Sample.to_numeric Sample.five
               = Ok (basic_statistics Sample.five)) by reflexivity.
  exists (basic_statistics Sample.five). split; [exact Ha|].
  exact (summary_counts_add_up Sample.to_numeric (Sample.record 200 100)
           [Sample.record 200 110; Sample.record 200 90; Sample.record 200 105;
            Sample.record 403 120] _ Ha).
Defined.

Lemma value_counts_fold (l : list Z) (m : gmap Z Z) (code : Z) :
  fold_left (fun m x => <[x := 1 + default 0 (m !! x)]> m) l m !! code
  = match count_occ Z.eq_dec l code with
    | O => m !! code
    | S k => Some (Z.of_nat (S k) + default 0 (m !! code))
    end.
Proof.
  revert m. induction l as [|x l IH]; intros m; [reflexivity|].
  cbn [fold_left count_occ]. rewrite IH.
  destruct (Z.eq_dec x code) as [->|Hne].
  - rewrite lookup_insert_eq.
    destruct (count_occ Z.eq_dec l code); unfold default; cbn [from_option id];
      f_equal; lia.
  - rewrite lookup_insert_ne by assumption. reflexivity.
Qed.

(** X6. In every summary of a non-empty list, [status_code_counts]
    maps each status code that occurs to the number of records with that
    code, and has no entry for a code that does not occur. *)
Theorem status_code_counts_exact (to_numeric : string -> float) (r0 : RequestRecord)
    (rs0 : list RequestRecord) (a : gmap string pyval) :
  analyze to_numeric (r0 :: rs0) = Ok a ->
  exists m,
    a !! "status_code_counts"%string = Some (PCounts m) /\
    forall code,
      m !! code = if count_status code (r0 :: rs0) =? 0
                  then None
                  else Some (count_status code (r0 :: rs0)).
Proof.
  intros Ha.
  rewrite !(analyze_keeps_basic to_numeric r0 rs0 a _ Ha) by discriminate.
  destruct (basic_statistics_lookup (r0 :: rs0)) as (_&_&_&_&_&_&_&_& Hc & _).
  eexists. split; [exact Hc|].
  intros code. unfold value_counts, count_status. rewrite value_counts_fold.
  destruct (count_occ Z.eq_dec (List.map status_code (r0 :: rs0)) code) as [|k].
  - reflexivity.
  - rewrite lookup_empty. unfold default. cbn [from_option id].
    destruct (Z.eqb_spec (Z.of_nat (S k)) 0) as [H0|_]; [lia|].
    f_equal; lia.
Qed.

(** X6 on the five sample records: 200 four times, 403 once, 500 never. *)
Lemma status_code_counts_exact_witness :
  exists a m,
    analyze Sample.to_numeric Sample.five = Ok a /\
    a !! "status_code_counts"%string = Some (PCounts m) /\
    m !! 200 = Some 4 /\ m !! 403 = Some 1 /\ m !! 500 = None.
Proof.
  assert (Ha : analyze Sample.to_numeric Sample.five
               = Ok (basic_statistics Sample.five)) by reflexivity.
  destruct (status_code_counts_exact Sample.to_numeric (Sample.record 200 100)
              [Sample.record 200 110; Sample.record 200 90; Sample.record 200 105;
               Sample.record 403 120] _ Ha) as (m & Hm & Hcount).
  exists (basic_statistics Sample.five), m.
  split; [exact Ha|]. split; [exact Hm|].
  rewrite !Hcount. repeat split.
Defined.

(** ** The records a run leaves in the result list *)

Lemma build_record_consistent (ep : string) (ex : Exchange) :
  let r := build_record ep ex in
  endpoint r = ep /\
  success r = (status_code r =? 200) /\
  (error r = None <-> success r = true).
Proof.
  unfold build_record. destruct (ex_outcome ex) as [response|str_e]; cbn.
  - split; [reflexivity|]. split; [reflexivity|].
    destruct (resp_status response =? 200); cbn; split; congruence.
  - split; [reflexivity|]. split; [reflexivity|]. split; discriminate.
Qed.

Lemma records_from_Forall net (P : RequestRecord -> Prop) (eps : list string) :
  (forall ep ex, List.In ep eps -> P (build_record ep ex)) ->
  forall k, List.Forall P (records_from net k eps).
Proof.
  induction eps as [|ep eps IH]; intros HP k; cbn [records_from]; constructor.
  - apply HP. now left.
  - apply IH. intros ep' ex Hin. apply HP. now right.
Qed.

Lemma exec_records_consistent net to_numeric (ops : list Op) (t : Tester) :
  List.Forall
    (fun r =>
       List.In (endpoint r) (flat_map requested ops) /\
       success r = (status_code r =? 200) /\
       (error r = None <-> success r = true))
    (results (self (exec net to_numeric ops {| self := set_results t []; trace := [] |}))).
Proof.
  destruct (exec_log net to_numeric ops {| self := set_results t []; trace := [] |})
    as (eps & Hr & _ & _ & Hincl & _).
  cbn [self trace results set_results app] in Hr. rewrite Hr.
  apply records_from_Forall. intros ep ex Hin.
  destruct (build_record_consistent ep ex) as (He & Hs & Herr). cbv zeta in *.
  rewrite He. split; [exact (Hincl ep Hin)|]. split; [exact Hs|exact Herr].
Qed.

(** X7. After any sequence of method calls on a tester that started
    with an empty result list, every record in the list was requested by
    one of the calls, has [success] set exactly when its status code is
    200, and has an error text exactly when [success] is false. *)
Theorem stored_records_consistent (net : nat -> Exchange) (to_numeric : string -> float)
    (ops : list Op) (t : Tester) :
  List.Forall
    (fun r =>
       List.In (endpoint r) (flat_map requested ops) /\
       success r = (status_code r =? 200) /\
       (error r = None <-> success r = true))
    (results (self (exec net to_numeric ops {| self := set_results t []; trace := [] |}))).
Proof.
  pose proof (exec_records_consistent net to_numeric ops t) as Hall.
  eapply List.Forall_impl; [|exact Hall].
  cbv beta. intros r (Hin & Hs & Herr). split; [exact Hin|]. split; assumption.
Qed.

Lemma count_success_status (rs : list RequestRecord) :
  List.Forall (fun r => success r = (status_code r =? 200)) rs ->
  count_success true rs = count_status 200 rs.
Proof.
  unfold count_success, count_status. intros Hall. f_equal.
  induction Hall as [|r rs Hr _ IH]; [reflexivity|].
  cbn [List.map count_occ]. rewrite Hr, IH.
  destruct (Z.eqb_spec (status_code r) 200) as [He|Hne];
    destruct (Z.eq_dec (status_code r) 200); try contradiction; reflexivity.
Qed.

(** X8. When the summary is computed from the result list of a run
    that started with an empty list, [successful_requests] is the number
    of records with status code 200 and [failed_requests] is the number
    of the others. *)
Theorem summary_counts_status_200 (net : nat -> Exchange) (to_numeric : string -> float)
    (ops : list Op) (t : Tester) (a : gmap string pyval) :
  let rs := results (self (exec net to_numeric ops
                             {| self := set_results t []; trace := [] |})) in
  rs <> [] ->
  analyze to_numeric rs = Ok a ->
  a !! "successful_requests"%string = Some (PInt (count_status 200 rs)) /\
  a !! "failed_requests"%string = Some (PInt (len rs - count_status 200 rs)).
Proof.
  cbv zeta. intros Hne Ha.
  pose proof (exec_records_consistent net to_numeric ops t) as Hall.
  destruct (results (self (exec net to_numeric ops
                             {| self := set_results t []; trace := [] |})))
    as [|r0 rs0]; [now elim Hne|].
  rewrite !(analyze_keeps_basic to_numeric r0 rs0 a _ Ha) by discriminate.
  destruct (basic_statistics_lookup (r0 :: rs0)) as (_ & Hs & Hf & _).
  rewrite Hs, Hf.
  assert (Hc : count_success true (r0 :: rs0) = count_status 200 (r0 :: rs0)).
  { apply count_success_status. eapply List.Forall_impl; [|exact Hall].
    cbv beta. intros r (_ & H & _). exact H. }
  pose proof (count_success_split (r0 :: rs0)) as Hsplit.
  split; do 2 f_equal; lia.
Qed.

(** X8 after a burst of three calls that are all answered with 200. *)
Lemma summary_counts_status_200_witness :
  exists a,
    analyze Sample.to_numeric Demo.three = Ok a /\
    a !! "successful_requests"%string = Some (PInt 3) /\
    a !! "failed_requests"%string = Some (PInt 0).
Proof.
  assert (Hsel : rate_limit_data Demo.three = Demo.full :: [Demo.full; Demo.full])
    by (vm_compute; reflexivity).
  assert (Hlim : py_int (rate_limit_limit Demo.full) = Some 5000)
    by (vm_compute; reflexivity).
  assert (Hne : Demo.three <> []) by (vm_compute; discriminate).
  pose proof (rate_limit_summary Sample.to_numeric Demo.three) as Hsum.
  rewrite Hsel in Hsum. destruct (Hsum 5000 Hlim eq_refl) as (a & Ha & _).
  destruct (summary_counts_status_200 Sample.net Sample.to_numeric
              [OpBurst 3 default_endpoint] Sample.tester a Hne Ha) as [Hs Hf].
  exists a. split; [exact Ha|]. rewrite Hs, Hf. split; vm_compute; reflexivity.
Defined.

(** ** Rate-limit headers made of digits *)

Lemma digit_is_plain (c : ascii) (d : Z) :
  digit_of c = Some d ->
  is_space c = false /\ Ascii.eqb c "-" = false /\ Ascii.eqb c "+" = false /\
  Ascii.eqb c "_" = false.
Proof.
  destruct c as [[] [] [] [] [] [] [] []]; intros H; try discriminate H;
    repeat split; reflexivity.
Qed.

Lemma scan_all_digits (s : string) :
  all_digits s = true ->
  forall p acc nd,
    s <> EmptyString \/ p = AfterDigit ->
    scan_digits p acc nd s
    = Some (decimal_from acc s, (nd + String.length s)%nat, EmptyString).
Proof.
  induction s as [|c s IH]; intros Hall p acc nd Hp.
  - destruct Hp as [Hp| ->]; [now elim Hp|]. cbn. now rewrite Nat.add_0_r.
  - cbn [all_digits] in Hall. cbn [scan_digits decimal_from String.length].
    destruct (digit_of c) as [d|]; [|discriminate].
    rewrite (IH Hall AfterDigit) by now right.
    cbn [default from_option id]. unfold default. cbn [from_option id].
    do 3 f_equal. lia.
Qed.

Lemma py_int_decimal (s : string) :
  is_decimal s = true -> py_int s = Some (decimal_value s).
Proof.
  unfold is_decimal, py_int, decimal_value.
  destruct s as [|c s]; [discriminate|].
  intros H. apply andb_prop in H. destruct H as [Hall Hlen].
  assert (Hc : exists d, digit_of c = Some d).
  { cbn [all_digits] in Hall. destruct (digit_of c); [eauto|discriminate]. }
  destruct Hc as [d Hd].
  destruct (digit_is_plain c d Hd) as (Hsp & Hminus & Hplus & _).
  cbn [lstrip]. rewrite Hsp. unfold split_sign. rewrite Hminus, Hplus.
  rewrite (scan_all_digits (String c s) Hall AtStart 0 0) by (left; discriminate).
  cbn [lstrip Nat.add]. now rewrite Hlen.
Qed.

Lemma decimal_from_bound (s : string) (acc : Z) :
  0 <= acc ->
  0 <= decimal_from acc s < (acc + 1) * 10 ^ Z.of_nat (String.length s).
Proof.
  revert acc. induction s as [|c s IH]; intros acc Hacc.
  - cbn. lia.
  - cbn [decimal_from String.length].
    assert (Hd : 0 <= default 0 (digit_of c) <= 9).
    { unfold digit_of.
      destruct ((48 <=? Z.of_N (N_of_ascii c)) && (Z.of_N (N_of_ascii c) <=? 57)) eqn:H;
        unfold default; cbn [from_option id]; lia. }
    specialize (IH (10 * acc + default 0 (digit_of c))).
    rewrite Nat2Z.inj_succ, Z.pow_succ_r by lia.
    assert (Hp : 0 < 10 ^ Z.of_nat (String.length s)) by (apply Z.pow_pos_nonneg; lia).
    nia.
Qed.

(** A limit of at most 18 decimal digits is the text of a 64-bit
    integer. *)
Lemma short_decimal_numeric (s : string) :
  is_decimal s = true -> (String.length s <= 18)%nat ->
  numeric_limit s = true /\ to_float (decimal_value s) = Ok (float_of_Z (decimal_value s)).
Proof.
  intros Hdec Hlen. unfold numeric_limit. rewrite (py_int_decimal s Hdec).
  pose proof (decimal_from_bound s 0 (Z.le_refl 0)) as Hb. fold (decimal_value s) in Hb.
  assert (Hpow : 10 ^ Z.of_nat (String.length s) <= 10 ^ 18)
    by (apply Z.pow_le_mono_r; lia).
  assert (H18 : 10 ^ 18 = 1000000000000000000) by reflexivity.
  assert (H63 : 2 ^ 63 = 9223372036854775808) by reflexivity.
  assert (Hover : 2 ^ 63 < float_overflow) by (vm_compute; reflexivity).
  rewrite H18 in Hpow. rewrite H63 in *.
  split.
  - apply andb_true_intro. split; [apply Z.leb_le|apply Z.ltb_lt]; lia.
  - unfold to_float.
    destruct (Z.ltb_spec (Z.abs (decimal_value s)) float_overflow) as [_|Hge];
      [reflexivity|lia].
Qed.

(** X9. When the first record with rate-limit data carries a limit
    made of at most 18 decimal digits, [analyze_results] returns a
    summary in which [final_rate_limit_remaining] is the remaining quota
    of the last record with rate-limit data, and [rate_limit_usage] is
    100 minus that quota divided by the number the first limit denotes,
    times 100; the limits of later records play no part. *)
Theorem usage_with_decimal_limit (to_numeric : string -> float)
    (rs : list RequestRecord) (first : RequestRecord) (rest : list RequestRecord) :
  rate_limit_data rs = first :: rest ->
  is_decimal (rate_limit_limit first) = true ->
  (String.length (rate_limit_limit first) <= 18)%nat ->
  exists a,
    analyze to_numeric rs = Ok a /\
    a !! "final_rate_limit_remaining"%string
    = Some (PFloat (to_numeric (rate_limit_remaining (List.last rest first)))) /\
    a !! "rate_limit_usage"%string
    = Some (PFloat (100 - to_numeric (rate_limit_remaining (List.last rest first))
                          / float_of_Z (decimal_value (rate_limit_limit first)) * 100)%float).
Proof.
  intros Hsel Hdec Hlen.
  destruct (short_decimal_numeric _ Hdec Hlen) as [_ Hf].
  apply py_int_decimal in Hdec.
  pose proof (rate_limit_summary to_numeric rs) as Hsum.
  rewrite Hsel in Hsum. exact (Hsum _ Hdec Hf).
Qed.

(** X9 on a record with limit 5000, followed by a record with 4000
    calls left whose limit header is not a number: the usage, 20, is
    computed from 5000. *)
Lemma usage_with_decimal_limit_witness :
  exists a,
    analyze Sample.to_numeric [Demo.full; Demo.odd] = Ok a /\
    a !! "final_rate_limit_remaining"%string = Some (PFloat 4000) /\
    a !! "rate_limit_usage"%string = Some (PFloat 20).
Proof.
  assert (Hsel : rate_limit_data [Demo.full; Demo.odd] = Demo.full :: [Demo.odd])
    by (vm_compute; reflexivity).
  assert (Hdec : is_decimal (rate_limit_limit Demo.full) = true)
    by (vm_compute; reflexivity).
  assert (Hlen : (String.length (rate_limit_limit Demo.full) <= 18)%nat)
    by (vm_compute; lia).
  destruct (usage_with_decimal_limit Sample.to_numeric [Demo.full; Demo.odd]
              Demo.full [Demo.odd] Hsel Hdec Hlen) as (a & Ha & Hf & Hu).
  exists a. split; [exact Ha|]. rewrite Hf, Hu. split; vm_compute; reflexivity.
Defined.

(** ** The summary as input of the report *)

(** X10. A summary returned by [analyze_results] can always be
    reported: whenever it has ['final_rate_limit_remaining'] it also has
    ['rate_limit_usage'], both numbers, so the subscript in
    [generate_report] finds its key.  The rate-limit section is part of
    the report exactly when some record has rate-limit data; with no
    such record the summary has neither key. *)
Theorem report_section_defined (to_numeric : string -> float)
    (rs : list RequestRecord) (a : gmap string pyval) :
  analyze to_numeric rs = Ok a ->
  (rate_limit_data rs = [] ->
   report_rate_limit a = Some None /\
   a !! "final_rate_limit_remaining"%string = None /\
   a !! "rate_limit_usage"%string = None) /\
  (rate_limit_data rs <> [] ->
   exists final usage,
     report_rate_limit a = Some (Some (PFloat final, PFloat usage))).
Proof.
  intros Ha. unfold report_rate_limit.
  pose proof (rate_limit_summary to_numeric rs) as Hsum.
  destruct (rate_limit_data rs) as [|first rest] eqn:Hsel.
  - destruct Hsum as (a' & Ha' & Hf & Hu).
    assert (a' = a) by congruence. subst a'.
    split; [|intros H; now elim H].
    intros _. now rewrite Hf.
  - split; [discriminate|]. intros _. clear Hsum.
    destruct rs as [|r0 rs0]; [discriminate|].
    pose proof (analyze_cases to_numeric r0 rs0) as Hc. cbv zeta in Hc.
    rewrite Hsel in Hc.
    destruct (py_int (rate_limit_limit first)) as [limit|]; [|congruence].
    destruct (to_float limit) as [divisor|e]; [|congruence].
    rewrite Hc in Ha. injection Ha as <-.
    rewrite lookup_insert_ne by discriminate.
    rewrite !lookup_insert_eq. eauto.
Qed.

(** X10 on the five sample records, which have no rate-limit data, and
    on a record with rate-limit data. *)
Lemma report_section_defined_witness :
  report_rate_limit (basic_statistics Sample.five) = Some None /\
  exists a final usage,
    analyze Sample.to_numeric [Demo.full] = Ok a /\
    report_rate_limit a = Some (Some (PFloat final, PFloat usage)).
Proof.
  assert (H5 : analyze Sample.to_numeric Sample.five = Ok (basic_statistics Sample.five))
    by reflexivity.
  assert (Hsel : rate_limit_data [Demo.full] = Demo.full :: [])
    by (vm_compute; reflexivity).
  assert (Hlim : py_int (rate_limit_limit Demo.full) = Some 5000)
    by (vm_compute; reflexivity).
  assert (Hne : rate_limit_data [Demo.full] <> []) by (rewrite Hsel; discriminate).
  pose proof (rate_limit_summary Sample.to_numeric [Demo.full]) as Hsum.
  rewrite Hsel in Hsum. destruct (Hsum 5000 Hlim eq_refl) as (a & H1 & _).
  destruct (report_section_defined Sample.to_numeric Sample.five _ H5) as [Hnone _].
  destruct (report_section_defined Sample.to_numeric [Demo.full] a H1) as [_ Hsome].
  split; [apply Hnone; reflexivity|].
  destruct (Hsome Hne) as (final & usage & Hr).
  exists a, final, usage. split; [exact H1|exact Hr].
Defined.


(** ** What the methods do to the configuration and to the outside *)

(** X11. Each timing pattern leaves the token, the base URL and the
    session headers of the tester as they were and only adds to the
    trace; what it adds are printed lines, sleeps, and GETs of the given
    endpoint at the tester's base URL.  It writes no file. *)
Theorem patterns_touch_only_their_endpoint (net : nat -> Exchange) (n : Z)
    (interval d inc : float) (ep : string) (s : State) :
  let Q := pattern_event (base_url (self s)) ep in
  let s1 := snd (test_burst_pattern net n ep s) in
  let s2 := snd (test_sustained_pattern net n interval ep s) in
  let s3 := snd (test_delayed_pattern net n d inc ep s) in
  (grows Q s s1 /\ writes (trace s1) = writes (trace s)) /\
  (grows Q s s2 /\ writes (trace s2) = writes (trace s)) /\
  (grows Q s s3 /\ writes (trace s3) = writes (trace s)).
Proof.
  cbv zeta.
  assert (Hw : forall s', grows (pattern_event (base_url (self s)) ep) s s' ->
                          writes (trace s') = writes (trace s)).
  { intros s' (_ & added & Ht & Hq).
    rewrite Ht, writes_app, (pattern_events_write_nothing _ _ _ Hq).
    apply List.app_nil_r. }
  destruct (burst_any net n ep s) as (k1 & new1 & _ & _ & H1).
  destruct (sustained_any net n interval ep s) as (k2 & new2 & _ & _ & H2).
  destruct (delayed_any net n d inc ep s) as (k3 & new3 & _ & _ & H3).
  split; [split; [exact H1|exact (Hw _ H1)]|].
  split; [split; [exact H2|exact (Hw _ H2)]|].
  split; [exact H3|exact (Hw _ H3)].
Qed.

Lemma run_op_grows net to_numeric (o : Op) (s : State) :
  grows (goes_to (base_url (self s))) s (run_op net to_numeric o s).
Proof.
  destruct o as [ep|n ep|n i ep|n d inc ep|f| | |a]; cbn [run_op].
  - unfold make_request. cbn [snd].
    grows_by (grows_refl (goes_to (base_url (self s))) s).
  - destruct (burst_any net n ep s) as (k & new & _ & _ & Hg).
    eapply grows_weaken; [apply pattern_event_goes_to|exact Hg].
  - destruct (sustained_any net n i ep s) as (k & new & _ & _ & Hg).
    eapply grows_weaken; [apply pattern_event_goes_to|exact Hg].
  - destruct (delayed_any net n d inc ep s) as (k & new & _ & _ & Hg).
    eapply grows_weaken; [apply pattern_event_goes_to|exact Hg].
  - unfold save_results, bind, print, emit.
    destruct (results (self s)); [cbn [snd]|destruct (open_w_cases f s) as [H|[e H]]; rewrite H];
      cbn [snd]; first [apply grows_refl|grows_by (grows_refl (goes_to (base_url (self s))) s)].
  - apply grows_refl.
  - unfold create_visualizations, bind, print, emit.
    destruct (results (self s)); cbn;
      grows_by (grows_refl (goes_to (base_url (self s))) s).
  - unfold generate_report, bind, print, emit, lift.
    destruct (report_text a); cbn;
      first [apply grows_refl|grows_by (grows_refl (goes_to (base_url (self s))) s)].
Qed.

(** X12. No sequence of method calls changes the token, the base URL
    or the session headers of a tester, and none removes or alters an
    effect already in the trace; every GET it sends goes to the base URL
    the tester was built with. *)
Theorem harness_keeps_configuration (net : nat -> Exchange) (to_numeric : string -> float)
    (ops : list Op) (s : State) :
  config (self (exec net to_numeric ops s)) = config (self s) /\
  exists added,
    trace (exec net to_numeric ops s) = trace s ++ added /\
    List.Forall (goes_to (base_url (self s))) added.
Proof.
  change (grows (goes_to (base_url (self s))) s (exec net to_numeric ops s)).
  assert (Hgen : forall s1, grows (goes_to (base_url (self s))) s s1 ->
                            grows (goes_to (base_url (self s))) s (exec net to_numeric ops s1)).
  { induction ops as [|o ops IH]; intros s1 Hg; [exact Hg|].
    cbn [exec fold_left]. apply IH.
    eapply grows_trans; [exact Hg|].
    rewrite <- (grows_base _ _ _ Hg). apply run_op_grows. }
  apply Hgen, grows_refl.
Qed.

(** ** File output and the whole run *)







